(** * KensMCP: tool dispatch, note persistence and SSE sessions

    A shallow embedding of [src/server.py] (tool registry, [call_tool]
    dispatch, the eleven tool handlers, [load_notes]/[save_notes]) and of
    the session part of [src/http_server.py] ([HTTPServerTransport]).

    Python values that cross the HTTP boundary are JSON values; Python
    [str] is a Rocq [string] holding the UTF-8 encoding of the text, so
    [text.encode()] is the identity on the bytes (a [str] with lone
    surrogates has no such encoding and is not represented).  A library
    call returns or raises an instance of Python's [Exception]; the one
    call that can do more is [eval] in [_handle_calculate], which runs an
    expression taken from the request: it can change the process state,
    raise outside [Exception] and fail to return.  Signals from outside
    the code ([KeyboardInterrupt], task cancellation) are not part of the
    model.  Runtime messages follow CPython 3.11. *)

From Stdlib Require Import String Ascii List ZArith NArith Lia Bool.
From Stdlib Require Import Floats.SpecFloat.
From stdpp Require Import gmap strings list pretty.

Open Scope string_scope.

(* ===================================================================== *)
(** ** Python strings *)
(* ===================================================================== *)

Module PyStr.

(** The characters that cannot be typed inside a literal. *)
Definition nl : string := String "010"%char EmptyString.
Definition dq : string := String "034"%char EmptyString.

(** [needle in hay] on [str]. *)
Fixpoint contains (needle hay : string) : bool :=
  String.prefix needle hay ||
  match hay with
  | EmptyString => false
  | String _ rest => contains needle rest
  end.

(** [sep.join(parts)]. *)
Definition join (sep : string) (parts : list string) : string :=
  String.concat sep parts.

(** A UTF-8 continuation byte, [10xxxxxx]. *)
Definition is_continuation (c : ascii) : bool :=
  let n := N_of_ascii c in (128 <=? n)%N && (n <? 192)%N.

(** Right-to-left scan: the continuation bytes met so far wait in the
    first component for their lead byte. *)
Fixpoint cp_scan (s : string) : string * list string :=
  match s with
  | EmptyString => (EmptyString, [])
  | String c rest =>
      let '(pending, groups) := cp_scan rest in
      if is_continuation c then (String c pending, groups)
      else (EmptyString, String c pending :: groups)
  end.

(** The code points of a [str], each as its UTF-8 bytes. *)
Definition codepoints (s : string) : list string :=
  let '(pending, groups) := cp_scan s in
  match pending with
  | EmptyString => groups
  | _ => pending :: groups
  end.

(** [len(s)], [s[::-1]] and [s[:n]]: Python counts code points. *)
Definition len (s : string) : nat := length (codepoints s).
Definition reverse (s : string) : string := String.concat "" (rev (codepoints s)).
Definition slice_to (n : nat) (s : string) : string :=
  String.concat "" (firstn n (codepoints s)).

(** [expression.replace("^", "**")]. *)
Fixpoint replace_caret (s : string) : string :=
  match s with
  | EmptyString => EmptyString
  | String c rest =>
      if Ascii.eqb c "^" then "**" ++ replace_caret rest
      else String c (replace_caret rest)
  end.

(** The class [[a-z0-9]] of the slug pattern. *)
Definition slug_char (c : ascii) : bool :=
  let n := N_of_ascii c in
  ((97 <=? n)%N && (n <=? 122)%N) || ((48 <=? n)%N && (n <=? 57)%N).

(** [re.sub(r'[^a-z0-9]+', '-', s)]: every maximal run of characters
    outside the class becomes one dash.  Bytes above 127 are outside the
    class, so working on the UTF-8 bytes gives the same runs. *)
Fixpoint sub_runs (in_run : bool) (s : string) : string :=
  match s with
  | EmptyString => EmptyString
  | String c rest =>
      if slug_char c then String c (sub_runs false rest)
      else if in_run then sub_runs true rest
      else String "-" (sub_runs true rest)
  end.

(** [s.lstrip(...)] and [s.rstrip(...)] for a class of characters. *)
Fixpoint lstrip (drop : ascii -> bool) (s : string) : string :=
  match s with
  | String c rest => if drop c then lstrip drop rest else s
  | EmptyString => EmptyString
  end.

Fixpoint rstrip (drop : ascii -> bool) (s : string) : string :=
  match s with
  | EmptyString => EmptyString
  | String c rest =>
      match rstrip drop rest with
      | EmptyString => if drop c then EmptyString else String c EmptyString
      | r => String c r
      end
  end.

(** [s.strip('-')]. *)
Definition strip_dash (s : string) : string :=
  rstrip (Ascii.eqb "-") (lstrip (Ascii.eqb "-") s).

(** Well-formed UTF-8 (Unicode table 3-7): [todo] lists the byte ranges
    still owed by the sequence being read. *)
Definition in_range (lo hi : N) (c : ascii) : bool :=
  let n := N_of_ascii c in (lo <=? n)%N && (n <=? hi)%N.

Definition utf8_lead (c : ascii) : option (list (N * N)) :=
  let n := N_of_ascii c in
  if (n <=? 127)%N then Some []
  else if (n <? 194)%N then None
  else if (n <=? 223)%N then Some [(128, 191)]%N
  else if (n =? 224)%N then Some [(160, 191); (128, 191)]%N
  else if (n <=? 236)%N then Some [(128, 191); (128, 191)]%N
  else if (n =? 237)%N then Some [(128, 159); (128, 191)]%N
  else if (n <=? 239)%N then Some [(128, 191); (128, 191)]%N
  else if (n =? 240)%N then Some [(144, 191); (128, 191); (128, 191)]%N
  else if (n <=? 243)%N then Some [(128, 191); (128, 191); (128, 191)]%N
  else if (n =? 244)%N then Some [(128, 143); (128, 191); (128, 191)]%N
  else None.

Fixpoint utf8_scan (todo : list (N * N)) (s : string) : bool :=
  match s with
  | EmptyString => match todo with [] => true | _ => false end
  | String c rest =>
      match todo with
      | (lo, hi) :: todo' => in_range lo hi c && utf8_scan todo' rest
      | [] => match utf8_lead c with
              | Some owed => utf8_scan owed rest
              | None => false
              end
      end
  end.

Definition utf8_valid (s : string) : bool := utf8_scan [] s.

End PyStr.

(* ===================================================================== *)
(** ** Python values, exceptions and the effect monad *)
(* ===================================================================== *)

(** The values [request.json()] and [json.load] produce.  A [dict] keeps
    insertion order; its keys are distinct. *)
#[warnings="-register-all"]
Inductive json : Type :=
| JNull
| JBool (b : bool)
| JInt (z : Z)
| JFloat (f : spec_float)
| JStr (s : string)
| JArr (items : list json)
| JObj (fields : list (string * json)).

(** An exception instance: its class name and [str(e)]. *)
Record exn : Type := Exn { exn_class : string; exn_str : string }.

(** How a call ends when it does not return a value.  [except Exception]
    answers the first kind only; the other two pass it. *)
Inductive fault : Type :=
| Exception (e : exn)   (* an instance of Exception is raised *)
| Interrupt (e : exn)   (* an exception outside Exception is raised: BaseException,
                           SystemExit, KeyboardInterrupt, GeneratorExit *)
| Hang.                 (* the call never returns *)

(** Raising an [exn] is a fault of the first kind. *)
Coercion Exception : exn >-> fault.

(** A call returns a value, or ends by some [e]. *)
Inductive result (E A : Type) : Type :=
| Return (a : A)
| Raise (e : E).
Arguments Return {E A} a.
Arguments Raise {E A} & e.

(** A library call: it returns, or raises an instance of Exception. *)
Definition outcome : Type -> Type := result exn.

(** The process state the handlers touch. *)
Record world : Type := World {
  notes_file : option string;  (* bytes of data/notes.json; None: no such file *)
  disk_free : option nat;      (* bytes a rewrite of the notes file gets down before the
                                  device refuses more; None: no limit *)
  clock : nat;                 (* readings of datetime.now() so far *)
  draws : nat                  (* calls of uuid.uuid4() so far *)
}.

(** State and faults: a computation runs in a world and either returns or
    ends by a fault, leaving a world behind in both cases. *)
Definition M (A : Type) : Type := world -> result fault A * world.

(** The Python standard library and the host, as far as the handlers call
    them.  Nothing is assumed about these functions beyond their types. *)
Record PyLib : Type := {
  py_eval : string -> M string;            (* eval(expr, {"__builtins__": {}}, safe_dict) and
                                              str() of its value: the expression comes from
                                              the request and can reach, through the
                                              attributes of its literals, any object of the
                                              process *)
  py_repr : json -> string;                (* str(v) of a float, a list or a dict *)
  str_upper : string -> string;
  str_lower : string -> string;
  str_title : string -> string;
  str_strip : string -> string;
  split_count : string -> nat;             (* len(text.split()) *)
  hexdigest : string -> string -> string;  (* hashlib.<algorithm>(data).hexdigest() *)
  json_loads : string -> outcome json;
  json_dumps_indent : json -> string;      (* json.dumps(v, indent=2) *)
  json_dumps_compact : json -> string;     (* json.dumps(v, separators=(",", ":")) *)
  decode_error : string -> string;         (* str(UnicodeDecodeError) for these bytes *)
  now_iso : nat -> string;                 (* datetime.now().isoformat(), by reading *)
  tzname : nat -> string;
  urandom16 : nat -> N;                    (* os.urandom(16) as an integer, by draw *)
  platform_system : string;
  platform_release : string;
  platform_version : string;
  platform_machine : string;
  platform_processor : string;
  platform_python_version : string;
  os_getcwd : outcome string;
  os_environ : list (string * string)
}.

Definition ret {A} (a : A) : M A := fun w => (Return a, w).
Definition raise {A} (e : exn) : M A := fun w => (Raise (Exception e), w).

(** A library call inside a handler. *)
Definition lift {A} (o : outcome A) : M A :=
  fun w => match o with
           | Return a => (Return a, w)
           | Raise e => (Raise (Exception e), w)
           end.

Definition bind {A B} (m : M A) (k : A -> M B) : M B :=
  fun w => match m w with
           | (Return a, w') => k a w'
           | (Raise f, w') => (Raise f, w')
           end.

(** [try: m  except Exception as e: h e]. *)
Definition try_except {A} (m : M A) (h : exn -> M A) : M A :=
  fun w => match m w with
           | (Return a, w') => (Return a, w')
           | (Raise (Exception e), w') => h e w'
           | (Raise f, w') => (Raise f, w')
           end.

(** [try: m  except cls as e: h e]: other classes pass through. *)
Definition try_except_class {A} (cls : string) (m : M A) (h : exn -> M A) : M A :=
  fun w => match m w with
           | (Return a, w') => (Return a, w')
           | (Raise (Exception e), w') =>
               if String.eqb (exn_class e) cls then h e w' else (Raise (Exception e), w')
           | (Raise f, w') => (Raise f, w')
           end.

Declare Scope py_scope.
Delimit Scope py_scope with py.
Notation "x <- m ;; k" := (bind m (fun x => k))
  (at level 100, m at next level, right associativity) : py_scope.
Notation "m ;;; k" := (bind m (fun _ => k))
  (at level 100, right associativity) : py_scope.
Open Scope py_scope.

(* ===================================================================== *)
(** ** The operations of the Python runtime the handlers rely on *)
(* ===================================================================== *)

Module Py.

Definition type_name (v : json) : string :=
  match v with
  | JNull => "NoneType"
  | JBool _ => "bool"
  | JInt _ => "int"
  | JFloat _ => "float"
  | JStr _ => "str"
  | JArr _ => "list"
  | JObj _ => "dict"
  end.

Definition AttributeError (v : json) (attr : string) : exn :=
  Exn "AttributeError" ("'" ++ type_name v ++ "' object has no attribute '" ++ attr ++ "'").

Definition TypeError (msg : string) : exn := Exn "TypeError" msg.

(** [d.get(key, default)] on the fields of a dict. *)
Fixpoint lookup (key : string) (fields : list (string * json)) : option json :=
  match fields with
  | [] => None
  | (k, v) :: rest => if String.eqb k key then Some v else lookup key rest
  end.

Definition dict_get (fields : list (string * json)) (key : string) (default : json) : json :=
  match lookup key fields with
  | Some v => v
  | None => default
  end.

(** [obj.get(key, default)]: only a dict has the method. *)
Definition get (obj : json) (key : string) (default : json) : outcome json :=
  match obj with
  | JObj fields => Return (dict_get fields key default)
  | _ => Raise (AttributeError obj "get")
  end.

(** [d[key] = v]: in place for a present key, appended otherwise. *)
Fixpoint dict_set (key : string) (v : json) (fields : list (string * json))
  : list (string * json) :=
  match fields with
  | [] => [(key, v)]
  | (k, old) :: rest =>
      if String.eqb k key then (k, v) :: rest else (k, old) :: dict_set key v rest
  end.

(** [del d[key]]. *)
Fixpoint dict_del (key : string) (fields : list (string * json))
  : list (string * json) :=
  match fields with
  | [] => []
  | (k, v) :: rest =>
      if String.eqb k key then rest else (k, v) :: dict_del key rest
  end.

(** [str(v)] inside an f-string. *)
Definition format (L : PyLib) (v : json) : string :=
  match v with
  | JStr s => s
  | JInt z => pretty z
  | JBool true => "True"
  | JBool false => "False"
  | JNull => "None"
  | _ => py_repr L v
  end.

(** [bool(v)]. *)
Definition truthy (v : json) : bool :=
  match v with
  | JNull => false
  | JBool b => b
  | JInt z => negb (Z.eqb z 0)
  | JFloat (S754_zero _) => false
  | JFloat _ => true
  | JStr s => negb (String.eqb s "")
  | JArr items => match items with [] => false | _ => true end
  | JObj fields => match fields with [] => false | _ => true end
  end.

(** [v == s] for a str [s]: only an equal str compares equal. *)
Definition eq_str (v : json) (s : string) : bool :=
  match v with
  | JStr t => String.eqb t s
  | _ => false
  end.

(** [key in table] for a dict with str keys: list and dict keys cannot be
    hashed; other non-str keys are simply absent. *)
Definition key_of (v : json) : outcome (option string) :=
  match v with
  | JStr s => Return (Some s)
  | JArr _ | JObj _ => Raise (TypeError ("unhashable type: '" ++ type_name v ++ "'"))
  | _ => Return None
  end.

(** [title in container] for a str [title]. *)
Definition contains (container : json) (title : string) : outcome bool :=
  match container with
  | JObj fields => Return (match lookup title fields with Some _ => true | None => false end)
  | JArr items => Return (existsb (fun v => eq_str v title) items)
  | JStr s => Return (PyStr.contains title s)
  | _ => Raise (TypeError ("argument of type '" ++ type_name container ++ "' is not iterable"))
  end.

Definition str_index_error : exn :=
  TypeError "string indices must be integers, not 'str'".
Definition list_index_error : exn :=
  TypeError "list indices must be integers or slices, not str".

(** [container[key]] for a str [key]. *)
Definition getitem (container : json) (key : string) : outcome json :=
  match container with
  | JObj fields =>
      match lookup key fields with
      | Some v => Return v
      | None => Raise (Exn "KeyError" ("'" ++ key ++ "'"))
      end
  | JArr _ => Raise list_index_error
  | JStr _ => Raise str_index_error
  | _ => Raise (TypeError ("'" ++ type_name container ++ "' object is not subscriptable"))
  end.

(** [container[key] = v] for a str [key]. *)
Definition setitem (container : json) (key : string) (v : json) : outcome json :=
  match container with
  | JObj fields => Return (JObj (dict_set key v fields))
  | JArr _ => Raise list_index_error
  | _ => Raise (TypeError ("'" ++ type_name container ++ "' object does not support item assignment"))
  end.

(** [del container[key]] for a str [key]. *)
Definition delitem (container : json) (key : string) : outcome json :=
  match container with
  | JObj fields =>
      match lookup key fields with
      | Some _ => Return (JObj (dict_del key fields))
      | None => Raise (Exn "KeyError" ("'" ++ key ++ "'"))
      end
  | JArr _ => Raise list_index_error
  | _ => Raise (TypeError ("'" ++ type_name container ++ "' object does not support item deletion"))
  end.

(** [v[:n]]. *)
Definition slice_to (n : nat) (v : json) : outcome json :=
  match v with
  | JStr s => Return (JStr (PyStr.slice_to n s))
  | JArr items => Return (JArr (firstn n items))
  | JObj _ => Raise (TypeError "unhashable type: 'slice'")
  | _ => Raise (TypeError ("'" ++ type_name v ++ "' object is not subscriptable"))
  end.

(** [len(v)]. *)
Definition len (v : json) : outcome nat :=
  match v with
  | JStr s => Return (PyStr.len s)
  | JArr items => Return (length items)
  | JObj fields => Return (length fields)
  | _ => Raise (TypeError ("object of type '" ++ type_name v ++ "' has no len()"))
  end.

(** [v += "..."] where [v] came out of a slice. *)
Definition iadd_dots (v : json) : outcome json :=
  match v with
  | JStr s => Return (JStr (s ++ "..."))
  | JArr items => Return (JArr (items ++ [JStr "."; JStr "."; JStr "."]))
  | _ => Raise (TypeError ("unsupported operand type(s) for +=: '" ++ type_name v ++ "' and 'str'"))
  end.

(** The str behind a method call such as [v.strip()]. *)
Definition as_str (v : json) (method : string) : outcome string :=
  match v with
  | JStr s => Return s
  | _ => Raise (AttributeError v method)
  end.

(** 10.0 as a binary64 value. *)
Definition float_ten : spec_float := S754_finite false 5629499534213120 (-49).

(** [min(v, 10)]: [10 < v] decides, and [v] itself is kept otherwise. *)
Definition min_ten (v : json) : outcome json :=
  match v with
  | JInt z => Return (if (10 <? z)%Z then JInt 10 else v)
  | JBool _ => Return v
  | JFloat f => Return (if SFltb float_ten f then JInt 10 else v)
  | _ => Raise (TypeError ("'<' not supported between instances of 'int' and '"
                           ++ type_name v ++ "'"))
  end.

(** The length of [range(v)]. *)
Definition range_len (v : json) : outcome nat :=
  match v with
  | JInt z => Return (Z.to_nat z)
  | JBool b => Return (if b then 1 else 0)%nat
  | _ => Raise (TypeError ("'" ++ type_name v ++ "' object cannot be interpreted as an integer"))
  end.

(** [v == 1]. *)
Definition eq_one (v : json) : bool :=
  match v with
  | JInt z => Z.eqb z 1
  | JBool b => b
  | JFloat f => match SFcompare f (S754_finite false 4503599627370496 (-52)) with
                | Some Eq => true
                | _ => false
                end
  | _ => false
  end.

End Py.

(* ===================================================================== *)
(** ** [base64] and [uuid] of the standard library *)
(* ===================================================================== *)

Module Base64.

Definition alphabet : string :=
  "ABCDEFGHIJKLMNOPQRSTUVWXYZabcdefghijklmnopqrstuvwxyz0123456789+/".

Definition pad : ascii := "="%char.

(** The character of a 6-bit value. *)
Definition enc (v : N) : ascii :=
  match String.get (N.to_nat v) alphabet with
  | Some c => c
  | None => pad
  end.

(** The 6-bit value of a character of the alphabet. *)
Definition dec (c : ascii) : option N :=
  let n := N_of_ascii c in
  if (65 <=? n)%N && (n <=? 90)%N then Some (n - 65)%N
  else if (97 <=? n)%N && (n <=? 122)%N then Some (n - 71)%N
  else if (48 <=? n)%N && (n <=? 57)%N then Some (n + 4)%N
  else if (n =? 43)%N then Some 62%N
  else if (n =? 47)%N then Some 63%N
  else None.

Definition chars (l : list ascii) (rest : string) : string :=
  fold_right String rest l.

(** The four 6-bit values of a group of three bytes [x], [y], [z] ... *)
Definition sextet1 (x : N) : N := N.shiftr x 2.
Definition sextet2 (x y : N) : N := N.lor (N.shiftl (N.land x 3) 4) (N.shiftr y 4).
Definition sextet3 (y z : N) : N := N.lor (N.shiftl (N.land y 15) 2) (N.shiftr z 6).
Definition sextet4 (z : N) : N := N.land z 63.

(** ... and the last one of a group cut short after [x], or after [y]. *)
Definition last2 (x : N) : N := N.shiftl (N.land x 3) 4.
Definition last3 (y : N) : N := N.shiftl (N.land y 15) 2.

(** [base64.b64encode]: three bytes give four characters, and a last group
    of one or two bytes is padded. *)
Fixpoint b64encode (s : string) : string :=
  match s with
  | EmptyString => EmptyString
  | String a EmptyString =>
      let x := N_of_ascii a in
      chars [enc (sextet1 x); enc (last2 x); pad; pad] EmptyString
  | String a (String b EmptyString) =>
      let x := N_of_ascii a in
      let y := N_of_ascii b in
      chars [enc (sextet1 x); enc (sextet2 x y); enc (last3 y); pad] EmptyString
  | String a (String b (String c rest)) =>
      let x := N_of_ascii a in
      let y := N_of_ascii b in
      let z := N_of_ascii c in
      chars [enc (sextet1 x); enc (sextet2 x y); enc (sextet3 y z); enc (sextet4 z)]
            (b64encode rest)
  end.

Definition Error (msg : string) : exn := Exn "binascii.Error" msg.

(** [binascii.a2b_base64] without strict mode, the decoder behind
    [base64.b64decode(s)]: characters outside the alphabet are skipped,
    a complete run of padding ends the input, and a quad left open at the
    end is an error.  [out] holds the decoded bytes, last one first. *)
Fixpoint a2b_base64 (s : string) (quad_pos : nat) (leftchar : N) (pads : nat)
  (out : list ascii) : outcome string :=
  match s with
  | EmptyString =>
      match quad_pos with
      | O => Return (string_of_list_ascii (rev out))
      | S O =>
          Raise (Error ("Invalid base64-encoded string: number of data characters ("
                        ++ pretty (length out / 3 * 4 + 1)%nat
                        ++ ") cannot be 1 more than a multiple of 4"))
      | _ => Raise (Error "Incorrect padding")
      end
  | String ch rest =>
      if Ascii.eqb ch pad then
        if (2 <=? quad_pos)%nat then
          if (4 <=? quad_pos + S pads)%nat
          then Return (string_of_list_ascii (rev out))
          else a2b_base64 rest quad_pos leftchar (S pads) out
        else a2b_base64 rest quad_pos leftchar pads out
      else
        match dec ch with
        | None => a2b_base64 rest quad_pos leftchar pads out
        | Some v =>
            match quad_pos with
            | O => a2b_base64 rest 1 v 0 out
            | S O =>
                a2b_base64 rest 2 (N.land v 15) 0
                  (ascii_of_N (N.lor (N.shiftl leftchar 2) (N.shiftr v 4)) :: out)
            | S (S O) =>
                a2b_base64 rest 3 (N.land v 3) 0
                  (ascii_of_N (N.lor (N.shiftl leftchar 4) (N.shiftr v 2)) :: out)
            | _ =>
                a2b_base64 rest 0 0 0
                  (ascii_of_N (N.lor (N.shiftl leftchar 6) v) :: out)
            end
        end
  end.

Definition b64decode (s : string) : outcome string := a2b_base64 s 0 0 0 [].

(** [bytes.decode()]: strict UTF-8. *)
Definition decode (L : PyLib) (b : string) : outcome string :=
  if PyStr.utf8_valid b then Return b
  else Raise (Exn "UnicodeDecodeError" (decode_error L b)).

End Base64.

Module Uuid.

Definition hex_digit (d : N) : ascii :=
  match String.get (N.to_nat d) "0123456789abcdef" with
  | Some c => c
  | None => "0"%char
  end.

(** The [k] low hexadecimal digits of [n], most significant first. *)
Fixpoint hex (k : nat) (n : N) : string :=
  match k with
  | O => EmptyString
  | S k' => hex k' (N.shiftr n 4) ++ String (hex_digit (N.land n 15)) EmptyString
  end.

(** [uuid.UUID(bytes=r, version=4)]: the variant and version bits are
    forced, the other 122 bits are the random ones. *)
Definition uuid4 (r : N) : N :=
  let i0 := N.land r (N.ones 128) in
  let i1 := N.ldiff i0 (N.shiftl 49152 48) in
  let i2 := N.lor i1 (N.shiftl 32768 48) in
  let i3 := N.ldiff i2 (N.shiftl 61440 64) in
  N.lor i3 (N.shiftl 4 76).

(** [str(u)]: 32 digits grouped 8-4-4-4-12. *)
Definition str (u : N) : string :=
  let h := hex 32 u in
  String.substring 0 8 h ++ "-" ++ String.substring 8 4 h ++ "-"
  ++ String.substring 12 4 h ++ "-" ++ String.substring 16 4 h ++ "-"
  ++ String.substring 20 12 h.

End Uuid.

(** [str(uuid.uuid4())] at the next draw of the random source. *)
Definition next_uuid (L : PyLib) (w : world) : string :=
  Uuid.str (Uuid.uuid4 (urandom16 L (draws w))).

Definition drawn (w : world) : world :=
  World (notes_file w) (disk_free w) (clock w) (S (draws w)).

Definition new_uuid (L : PyLib) : M string :=
  fun w => (Return (next_uuid L w), drawn w).

(** [datetime.now()]: the index of the reading. *)
Definition tick : M nat :=
  fun w => (Return (clock w),
            World (notes_file w) (disk_free w) (S (clock w)) (draws w)).

(* ===================================================================== *)
(** ** Note persistence: [load_notes] and [save_notes] *)
(* ===================================================================== *)

(** [load_notes]: the parsed file, or an empty dict when the file is
    missing or anything goes wrong while reading it. *)
Definition load_notes (L : PyLib) : M json :=
  fun w =>
    match notes_file w with
    | None => (Return (JObj []), w)
    | Some bytes =>
        match json_loads L bytes with
        | Return v => (Return v, w)
        | Raise _ => (Return (JObj []), w)
        end
    end.

(** [string_take n s]: the first [n] bytes of [s]. *)
Definition string_take (n : nat) (s : string) : string := String.substring 0 n s.

Definition ENOSPC : exn := Exn "OSError" "[Errno 28] No space left on device".

(** [save_notes]: [open(NOTES_FILE, "w")] empties the file, which gives
    its bytes back to the device, then [json.dump] writes the document
    into it.  When the device takes fewer bytes than the document has,
    the bytes it took stay in the file and the write raises.  The next
    rewrite starts from an emptied file again, so it gets as far as this
    one could.  The directory and the file are taken to open. *)
Definition save_notes (L : PyLib) (notes : json) : M unit :=
  fun w =>
    let doc := json_dumps_indent L notes in
    match disk_free w with
    | None => (Return tt, World (Some doc) None (clock w) (draws w))
    | Some room =>
        if (String.length doc <=? room)%nat
        then (Return tt, World (Some doc) (Some room) (clock w) (draws w))
        else (Raise (Exception ENOSPC),
              World (Some (string_take room doc)) (Some room) (clock w) (draws w))
    end.

(* ===================================================================== *)
(** ** The tool registry: [list_tools] *)
(* ===================================================================== *)

Record Property : Type := {
  p_type : string;
  p_description : string;
  p_enum : option (list string);
  p_minimum : option Z;
  p_maximum : option Z
}.

Record InputSchema : Type := {
  properties : list (string * Property);
  required : list string
}.

Record Tool : Type := {
  name : string;
  description : string;
  inputSchema : InputSchema
}.

Definition string_prop (d : string) : Property :=
  {| p_type := "string"; p_description := d; p_enum := None;
     p_minimum := None; p_maximum := None |}.

Definition enum_prop (values : list string) (d : string) : Property :=
  {| p_type := "string"; p_description := d; p_enum := Some values;
     p_minimum := None; p_maximum := None |}.

Definition list_tools : list Tool :=
  [ {| name := "calculate";
       description := "Perform mathematical calculations. Supports +, -, *, /, **, sqrt, sin, cos, tan, log, abs, round, floor, ceil.";
       inputSchema := {|
         properties := [("expression", string_prop "Mathematical expression to evaluate (e.g., '2 + 2', 'sqrt(16)', '10 ** 2')")];
         required := ["expression"] |} |};
    {| name := "text_transform";
       description := "Transform text: uppercase, lowercase, title case, reverse, count words/chars, or slugify.";
       inputSchema := {|
         properties := [("text", string_prop "The text to transform");
                        ("operation", enum_prop ["uppercase"; "lowercase"; "titlecase"; "reverse"; "word_count"; "char_count"; "slugify"] "The transformation to apply")];
         required := ["text"; "operation"] |} |};
    {| name := "system_info";
       description := "Get system information: current time, platform, environment variables, or working directory.";
       inputSchema := {|
         properties := [("info_type", enum_prop ["time"; "platform"; "env"; "cwd"; "all"] "Type of system information to retrieve")];
         required := ["info_type"] |} |};
    {| name := "note_create";
       description := "Create a new note with a title and content. Notes are persisted to disk.";
       inputSchema := {|
         properties := [("title", string_prop "Title of the note (used as identifier)");
                        ("content", string_prop "Content of the note")];
         required := ["title"; "content"] |} |};
    {| name := "note_list";
       description := "List all saved notes with their titles and creation dates.";
       inputSchema := {| properties := []; required := [] |} |};
    {| name := "note_read";
       description := "Read the content of a specific note by title.";
       inputSchema := {|
         properties := [("title", string_prop "Title of the note to read")];
         required := ["title"] |} |};
    {| name := "note_delete";
       description := "Delete a note by title.";
       inputSchema := {|
         properties := [("title", string_prop "Title of the note to delete")];
         required := ["title"] |} |};
    {| name := "generate_hash";
       description := "Generate hash of text using MD5, SHA1, SHA256, or SHA512.";
       inputSchema := {|
         properties := [("text", string_prop "Text to hash");
                        ("algorithm", enum_prop ["md5"; "sha1"; "sha256"; "sha512"] "Hash algorithm to use")];
         required := ["text"; "algorithm"] |} |};
    {| name := "generate_uuid";
       description := "Generate a random UUID (v4).";
       inputSchema := {|
         properties := [("count", {| p_type := "integer";
                                     p_description := "Number of UUIDs to generate (default: 1, max: 10)";
                                     p_enum := None;
                                     p_minimum := Some 1%Z;
                                     p_maximum := Some 10%Z |})];
         required := [] |} |};
    {| name := "json_format";
       description := "Format, validate, or minify JSON data.";
       inputSchema := {|
         properties := [("json_string", string_prop "JSON string to process");
                        ("operation", enum_prop ["format"; "minify"; "validate"] "Operation to perform")];
         required := ["json_string"; "operation"] |} |};
    {| name := "base64_convert";
       description := "Encode or decode Base64 strings.";
       inputSchema := {|
         properties := [("text", string_prop "Text to encode or Base64 string to decode");
                        ("operation", enum_prop ["encode"; "decode"] "Whether to encode or decode")];
         required := ["text"; "operation"] |} |}
  ].

(** The names of the registry, in registration order. *)
Definition tool_names : list string := map name list_tools.



(* ===================================================================== *)
(** ** The tool handlers *)
(* ===================================================================== *)

Import PyStr.

Record TextContent : Type := { type : string; text : string }.

(** [[TextContent(type="text", text=s)]]: what every handler returns. *)
Definition reply (s : string) : list TextContent := [ {| type := "text"; text := s |} ].

Definition handler : Type := json -> M (list TextContent).

Definition _handle_calculate (L : PyLib) : handler := fun args =>
  expression <- lift (Py.get args "expression" (JStr "")) ;;
  try_except
    (e <- lift (Py.as_str expression "replace") ;;
     let expr := replace_caret e in
     result <- py_eval L expr ;;
     ret (reply ("🔢 " ++ e ++ " = " ++ result)))
    (fun e => ret (reply ("❌ Invalid expression: " ++ exn_str e))).

(** [key in table] followed by [table[key]]. *)
Definition find_key {A} (key : option string) (table : list (string * A)) : option A :=
  match key with
  | Some k => snd <$> List.find (fun kv => String.eqb (fst kv) k) table
  | None => None
  end.

Definition _handle_text_transform (L : PyLib) : handler := fun args =>
  text <- lift (Py.get args "text" (JStr "")) ;;
  operation <- lift (Py.get args "operation" (JStr "")) ;;
  t <- lift (Py.as_str text "upper") ;;
  let results :=
    [ ("uppercase", str_upper L t);
      ("lowercase", str_lower L t);
      ("titlecase", str_title L t);
      ("reverse", reverse t);
      ("word_count", pretty (split_count L t));
      ("char_count", pretty (len t));
      ("slugify", strip_dash (sub_runs false (str_lower L t))) ] in
  key <- lift (Py.key_of operation) ;;
  match find_key key results with
  | Some r => ret (reply ("📝 Result: " ++ r))
  | None => ret (reply ("❌ Unknown operation: " ++ Py.format L operation))
  end.

(** [info_type in (t, "all")]. *)
Definition wants (info_type : json) (t : string) : bool :=
  Py.eq_str info_type t || Py.eq_str info_type "all".

Definition safe_vars : list string := ["USER"; "HOME"; "SHELL"; "LANG"; "PATH"].

Definition environ_get (L : PyLib) (k : string) : string :=
  match List.find (fun kv => String.eqb (fst kv) k) (os_environ L) with
  | Some kv => snd kv
  | None => "N/A"
  end.

Definition _handle_system_info (L : PyLib) : handler := fun args =>
  info_type <- lift (Py.get args "info_type" (JStr "all")) ;;
  time_part <-
    (if wants info_type "time"
     then t1 <- tick ;; t2 <- tick ;;
          ret [("current_time", JStr (now_iso L t1)); ("timezone", JStr (tzname L t2))]
     else ret []) ;;
  let platform_part :=
    if wants info_type "platform"
    then [("system", JStr (platform_system L));
          ("release", JStr (platform_release L));
          ("version", JStr (platform_version L));
          ("machine", JStr (platform_machine L));
          ("processor", JStr (platform_processor L));
          ("python_version", JStr (platform_python_version L))]
    else [] in
  cwd_part <-
    (if wants info_type "cwd"
     then d <- lift (os_getcwd L) ;; ret [("working_directory", JStr d)]
     else ret []) ;;
  let env_part :=
    if wants info_type "env"
    then [("environment", JObj (map (fun k => (k, JStr (environ_get L k))) safe_vars))]
    else [] in
  let info := JObj (time_part ++ platform_part ++ cwd_part ++ env_part) in
  let formatted := json_dumps_indent L info in
  ret (reply ("💻 System Information:" ++ nl ++ "```json" ++ nl ++ formatted ++ nl ++ "```")).

(** [args.get("title", "").strip()]. *)
Definition stripped_title (L : PyLib) (args : json) : M string :=
  v <- lift (Py.get args "title" (JStr "")) ;;
  s <- lift (Py.as_str v "strip") ;;
  ret (str_strip L s).

Definition _handle_note_create (L : PyLib) : handler := fun args =>
  title <- stripped_title L args ;;
  content <- lift (Py.get args "content" (JStr "")) ;;
  if String.eqb title ""
  then ret (reply "❌ Note title is required")
  else
    notes <- load_notes L ;;
    t1 <- tick ;;
    t2 <- tick ;;
    let note := JObj [("content", content);
                      ("created_at", JStr (now_iso L t1));
                      ("updated_at", JStr (now_iso L t2))] in
    notes' <- lift (Py.setitem notes title note) ;;
    save_notes L notes' ;;;
    ret (reply ("✅ Note '" ++ title ++ "' saved successfully!")).

(** One line of the listing, for the entry [title]: [data]. *)
Definition note_line (L : PyLib) (entry : string * json) : M string :=
  let '(title, data) := entry in
  c <- lift (Py.get data "created_at" (JStr "Unknown")) ;;
  created <- lift (Py.slice_to 10 c) ;;
  p <- lift (Py.get data "content" (JStr "")) ;;
  preview <- lift (Py.slice_to 50 p) ;;
  p' <- lift (Py.get data "content" (JStr "")) ;;
  n <- lift (Py.len p') ;;
  preview' <- (if (50 <? n)%nat then lift (Py.iadd_dots preview) else ret preview) ;;
  ret ("• **" ++ title ++ "** (created: " ++ Py.format L created ++ ")" ++ nl
       ++ "  " ++ Py.format L preview' ++ nl).

(** The loop [for ... in ...: lines.append(...)]. *)
Fixpoint for_each {A B} (f : A -> M B) (l : list A) : M (list B) :=
  match l with
  | [] => ret []
  | a :: rest => b <- f a ;; bs <- for_each f rest ;; ret (b :: bs)
  end.

(** [notes.items()]. *)
Definition items_of (notes : json) : M (list (string * json)) :=
  match notes with
  | JObj fields => ret fields
  | _ => raise (Py.AttributeError notes "items")
  end.

Definition _handle_note_list (L : PyLib) : handler := fun args =>
  notes <- load_notes L ;;
  if negb (Py.truthy notes)
  then ret (reply "📭 No notes found. Create one with note_create!")
  else
    entries <- items_of notes ;;
    lines <- for_each (note_line L) entries ;;
    ret (reply (join nl (("📒 **Your Notes:**" ++ nl) :: lines))).

Definition _handle_note_read (L : PyLib) : handler := fun args =>
  title <- stripped_title L args ;;
  notes <- load_notes L ;;
  present <- lift (Py.contains notes title) ;;
  if negb present
  then ret (reply ("❌ Note '" ++ title ++ "' not found"))
  else
    note <- lift (Py.getitem notes title) ;;
    content <- lift (Py.getitem note "content") ;;
    created <- lift (Py.getitem note "created_at") ;;
    ret (reply ("📖 **" ++ title ++ "**" ++ nl ++ nl ++ Py.format L content ++ nl ++ nl
                ++ "_Created: " ++ Py.format L created ++ "_")).

Definition _handle_note_delete (L : PyLib) : handler := fun args =>
  title <- stripped_title L args ;;
  notes <- load_notes L ;;
  present <- lift (Py.contains notes title) ;;
  if negb present
  then ret (reply ("❌ Note '" ++ title ++ "' not found"))
  else
    notes' <- lift (Py.delitem notes title) ;;
    save_notes L notes' ;;;
    ret (reply ("🗑️ Note '" ++ title ++ "' deleted successfully!")).

Definition hash_funcs : list (string * string) :=
  [("md5", "md5"); ("sha1", "sha1"); ("sha256", "sha256"); ("sha512", "sha512")].

Definition _handle_generate_hash (L : PyLib) : handler := fun args =>
  text <- lift (Py.get args "text" (JStr "")) ;;
  algorithm <- lift (Py.get args "algorithm" (JStr "sha256")) ;;
  key <- lift (Py.key_of algorithm) ;;
  match find_key key hash_funcs with
  | None => ret (reply ("❌ Unknown algorithm: " ++ Py.format L algorithm))
  | Some algo =>
      data <- lift (Py.as_str text "encode") ;;
      let hash_result := hexdigest L algo data in
      ret (reply ("🔐 " ++ str_upper L algo ++ ": `" ++ hash_result ++ "`"))
  end.

(** [[str(uuid.uuid4()) for _ in range(n)]]. *)
Fixpoint uuid_list (L : PyLib) (n : nat) : M (list string) :=
  match n with
  | O => ret []
  | S n' => u <- new_uuid L ;; us <- uuid_list L n' ;; ret (u :: us)
  end.

Definition _handle_generate_uuid (L : PyLib) : handler := fun args =>
  c <- lift (Py.get args "count" (JInt 1)) ;;
  count <- lift (Py.min_ten c) ;;
  n <- lift (Py.range_len count) ;;
  uuids <- uuid_list L n ;;
  if Py.eq_one count
  then
    match uuids with
    | u :: _ => ret (reply ("🆔 UUID: `" ++ u ++ "`"))
    | [] => raise (Exn "IndexError" "list index out of range")
    end
  else
    let formatted :=
      join nl (imap (fun i u => "  " ++ pretty (i + 1)%nat ++ ". `" ++ u ++ "`") uuids) in
    ret (reply ("🆔 Generated " ++ Py.format L count ++ " UUIDs:" ++ nl ++ formatted)).

(** [json.loads(v)]: only a str can be parsed. *)
Definition loads (L : PyLib) (v : json) : outcome json :=
  match v with
  | JStr s => json_loads L s
  | _ => Raise (Py.TypeError ("the JSON object must be str, bytes or bytearray, not "
                              ++ Py.type_name v))
  end.

Definition _handle_json_format (L : PyLib) : handler := fun args =>
  json_string <- lift (Py.get args "json_string" (JStr "")) ;;
  operation <- lift (Py.get args "operation" (JStr "format")) ;;
  try_except_class "JSONDecodeError"
    (parsed <- lift (loads L json_string) ;;
     if Py.eq_str operation "validate"
     then ret (reply "✅ Valid JSON!")
     else if Py.eq_str operation "minify"
     then ret (reply ("📦 Minified:" ++ nl ++ "`" ++ json_dumps_compact L parsed ++ "`"))
     else ret (reply ("📋 Formatted:" ++ nl ++ "```json" ++ nl
                      ++ json_dumps_indent L parsed ++ nl ++ "```")))
    (fun e => ret (reply ("❌ Invalid JSON: " ++ exn_str e))).

Definition _handle_base64_convert (L : PyLib) : handler := fun args =>
  text <- lift (Py.get args "text" (JStr "")) ;;
  operation <- lift (Py.get args "operation" (JStr "encode")) ;;
  try_except
    (if Py.eq_str operation "encode"
     then
       data <- lift (Py.as_str text "encode") ;;
       result <- lift (Base64.decode L (Base64.b64encode data)) ;;
       ret (reply ("🔤 Encoded:" ++ nl ++ "`" ++ result ++ "`"))
     else
       data <- lift (Py.as_str text "encode") ;;
       raw <- lift (Base64.b64decode data) ;;
       result <- lift (Base64.decode L raw) ;;
       ret (reply ("🔤 Decoded:" ++ nl ++ "`" ++ result ++ "`")))
    (fun e => ret (reply ("❌ Error: " ++ exn_str e))).

(* ===================================================================== *)
(** ** Dispatch: [call_tool] *)
(* ===================================================================== *)

(** The branch the [if]/[elif] chain of [call_tool] takes for a name;
    [None] is the final [else]. *)
Definition select_handler (L : PyLib) (name : string) : option handler :=
  if String.eqb name "calculate" then Some (_handle_calculate L)
  else if String.eqb name "text_transform" then Some (_handle_text_transform L)
  else if String.eqb name "system_info" then Some (_handle_system_info L)
  else if String.eqb name "note_create" then Some (_handle_note_create L)
  else if String.eqb name "note_list" then Some (_handle_note_list L)
  else if String.eqb name "note_read" then Some (_handle_note_read L)
  else if String.eqb name "note_delete" then Some (_handle_note_delete L)
  else if String.eqb name "generate_hash" then Some (_handle_generate_hash L)
  else if String.eqb name "generate_uuid" then Some (_handle_generate_uuid L)
  else if String.eqb name "json_format" then Some (_handle_json_format L)
  else if String.eqb name "base64_convert" then Some (_handle_base64_convert L)
  else None.

Definition unknown_tool (name : string) : string := "❌ Unknown tool: " ++ name.

Definition error_executing (name : string) (e : exn) : string :=
  "❌ Error executing " ++ name ++ ": " ++ exn_str e.

Definition call_tool (L : PyLib) (name : string) (arguments : json)
  : M (list TextContent) :=
  try_except
    match select_handler L name with
    | Some h => h arguments
    | None => ret (reply (unknown_tool name))
    end
    (fun e => ret (reply (error_executing name e))).

(** [ToolCallResult], as the caller of [call_tool] tells the two apart
    ([HTTPServerTransport._handle_call_tool]): a returned content list is
    the success, an instance of Exception is the failure with [str(e)];
    what passes [except Exception] reaches the caller as it is. *)
Inductive ToolCallResult : Type :=
| Ok (content : list TextContent)
| Err (message : string).

Definition execute (L : PyLib) (tool_name : string) (arguments : json)
  : M ToolCallResult :=
  try_except
    (result <- call_tool L tool_name arguments ;; ret (Ok result))
    (fun e => ret (Err (exn_str e))).

(* ===================================================================== *)
(** ** The HTTP/SSE transport: [HTTPServerTransport] *)
(* ===================================================================== *)

Module Http.

(** [web.json_response(body, status=...)]. *)
Record Response : Type := { status : nat; body : json }.



(** [self.sessions]: session id to the pending messages of its
    [asyncio.Queue], oldest first. *)
Abbreviation sessions := (gmap string (list json)).

(** What [resp.send(json.dumps(...))] puts on an event stream. *)
Inductive frame : Type :=
| SessionFrame (id : string)      (* {"type": "session", "id": id} *)
| MessageFrame (message : json)   (* a queued message *)
| PingFrame.                      (* {"type": "ping"} *)

(** [_handle_sse], on connect: a fresh id gets an empty queue, and the
    id is the first frame of the stream. *)
Definition sse_connect (L : PyLib) (ss : sessions) (w : world)
  : (string * frame * sessions) * world :=
  let session_id := next_uuid L w in
  ((session_id, SessionFrame session_id, <[session_id := []]> ss), drawn w).

(** [_handle_sse], one turn of the loop:
    [asyncio.wait_for(self.sessions[session_id].get(), timeout=30.0)]
    hands out the oldest message, or times out on an empty queue, and the
    timeout is answered with a ping. *)
Definition sse_next (session_id : string) (ss : sessions) : outcome (frame * sessions) :=
  match ss !! session_id with
  | None => Raise (Exn "KeyError" ("'" ++ session_id ++ "'"))
  | Some [] => Return (PingFrame, ss)
  | Some (message :: rest) => Return (MessageFrame message, <[session_id := rest]> ss)
  end.

(** [_handle_sse], the [finally] block: [del self.sessions[session_id]]. *)
Definition sse_disconnect (session_id : string) (ss : sessions) : outcome sessions :=
  match ss !! session_id with
  | None => Raise (Exn "KeyError" ("'" ++ session_id ++ "'"))
  | Some _ => Return (delete session_id ss)
  end.

(** [_handle_message]: the body goes onto the queue of the session the
    [X-Session-ID] header names, if there is such a session. *)
Definition _handle_message (request_json : outcome json) (header : option string)
  (ss : sessions) : Response * sessions :=
  match request_json with
  | Raise e => ({| status := 400; body := JObj [("error", JStr (exn_str e))] |}, ss)
  | Return data =>
      let received := {| status := 200; body := JObj [("status", JStr "received")] |} in
      match header with
      | Some session_id =>
          if negb (String.eqb session_id "") then
            match ss !! session_id with
            | Some queue => (received, <[session_id := (queue ++ [data])%list]> ss)
            | None => (received, ss)
            end
          else (received, ss)
      | None => (received, ss)
      end
  end.

(** The session manager of the specification, on top of the handlers. *)
Definition push (session_id : string) (event : json) (ss : sessions) : sessions :=
  snd (_handle_message (Return event) (Some session_id) ss).

Fixpoint push_all (session_id : string) (events : list json) (ss : sessions) : sessions :=
  match events with
  | [] => ss
  | e :: rest => push_all session_id rest (push session_id e ss)
  end.

(** [n] turns of the consumer loop: the frames sent, in order. *)
Fixpoint pop_n (n : nat) (session_id : string) (ss : sessions)
  : outcome (list frame * sessions) :=
  match n with
  | O => Return ([], ss)
  | S n' =>
      match sse_next session_id ss with
      | Raise e => Raise e
      | Return (f, ss') =>
          match pop_n n' session_id ss' with
          | Raise e => Raise e
          | Return (fs, ss'') => Return (f :: fs, ss'')
          end
      end
  end.

End Http.

(* ===================================================================== *)
(** ** A library instance for concrete runs *)
(* ===================================================================== *)

(** The statements below hold for every [PyLib].  Concrete runs need one
    instance: this one covers plain ASCII text and documents without
    floats, prints them the way [json.dumps] does, reads back the
    documents it is told about and rejects the empty file with CPython's
    message. *)
Module Demo.

Definition spaces (n : nat) : string := String.concat "" (repeat " " n).

(** A JSON string literal for text without quotes, backslashes, control
    or non-ASCII characters. *)
Definition quote (s : string) : string := dq ++ s ++ dq.

(** [json.dumps(v, indent=2)], [depth] being the indentation so far. *)
Fixpoint dumps (depth : nat) (v : json) : string :=
  match v with
  | JNull => "null"
  | JBool true => "true"
  | JBool false => "false"
  | JInt z => pretty z
  | JFloat _ => "0.0"
  | JStr s => quote s
  | JArr [] => "[]"
  | JArr items =>
      "[" ++ nl
      ++ join ("," ++ nl)
           (map (fun x => spaces (depth + 2) ++ dumps (depth + 2) x) items)
      ++ nl ++ spaces depth ++ "]"
  | JObj [] => "{}"
  | JObj fields =>
      "{" ++ nl
      ++ join ("," ++ nl)
           (map (fun kv : string * json =>
                   let (k, x) := kv in
                   spaces (depth + 2) ++ quote k ++ ": " ++ dumps (depth + 2) x) fields)
      ++ nl ++ spaces depth ++ "}"
  end.

(** [json.dumps(v, separators=(",", ":"))]. *)
Fixpoint dumps_compact (v : json) : string :=
  match v with
  | JNull => "null"
  | JBool true => "true"
  | JBool false => "false"
  | JInt z => pretty z
  | JFloat _ => "0.0"
  | JStr s => quote s
  | JArr items => "[" ++ join "," (map dumps_compact items) ++ "]"
  | JObj fields =>
      "{" ++ join "," (map (fun kv : string * json =>
                              let (k, x) := kv in quote k ++ ":" ++ dumps_compact x) fields)
      ++ "}"
  end.

(** A stored note and two versions of the note store. *)
Definition note (content stamp : string) : json :=
  JObj [("content", JStr content); ("created_at", JStr stamp); ("updated_at", JStr stamp)].

Definition old_notes : json := JObj [("a", note "x" "2024-01-01T00:00:00")].
Definition new_notes : json :=
  JObj [("a", note "x" "2024-01-01T00:00:00"); ("b", note "y" "2024-01-02T00:00:00")].

Definition known_documents : list json := [JObj []; old_notes; new_notes].

(** [json.loads]: the known documents are read back from their printed
    form; the empty input is rejected as CPython rejects it. *)
Definition loads (s : string) : outcome json :=
  match List.find (fun d => String.eqb (dumps 0 d) s) known_documents with
  | Some d => Return d
  | None => Raise (Exn "JSONDecodeError" "Expecting value: line 1 column 1 (char 0)")
  end.

Definition code (c : ascii) : N := N_of_ascii c.
Definition is_lower (c : ascii) : bool := (97 <=? code c)%N && (code c <=? 122)%N.
Definition is_upper (c : ascii) : bool := (65 <=? code c)%N && (code c <=? 90)%N.
Definition is_space (c : ascii) : bool :=
  (code c =? 32)%N || ((9 <=? code c)%N && (code c <=? 13)%N)
  || ((28 <=? code c)%N && (code c <=? 31)%N).
Definition to_upper (c : ascii) : ascii :=
  if is_lower c then ascii_of_N (code c - 32) else c.
Definition to_lower (c : ascii) : ascii :=
  if is_upper c then ascii_of_N (code c + 32) else c.

Fixpoint map_chars (f : ascii -> ascii) (s : string) : string :=
  match s with
  | EmptyString => EmptyString
  | String c rest => String (f c) (map_chars f rest)
  end.

(** [str.title()] on ASCII: a letter after a letter is lowered, any
    other letter is raised. *)
Fixpoint title (after_letter : bool) (s : string) : string :=
  match s with
  | EmptyString => EmptyString
  | String c rest =>
      if is_lower c || is_upper c
      then String (if after_letter then to_lower c else to_upper c) (title true rest)
      else String c (title false rest)
  end.

(** [len(s.split())] on ASCII: the maximal runs without whitespace. *)
Fixpoint words (in_word : bool) (s : string) : nat :=
  match s with
  | EmptyString => 0
  | String c rest =>
      if is_space c then words false rest
      else ((if in_word then 0 else 1) + words true rest)%nat
  end.

(** Three expressions that leave the calculator's name space through the
    attributes of a literal: the first raises a [BaseException], the
    second sums an iterator that never ends, the third removes the notes
    file of a server started as [src.http_server]. *)
Definition stop_expr : string :=
  "(_ for _ in ()).throw([c for c in ().__class__.__base__.__subclasses__() if c.__name__ == 'BaseException'][0]('stop'))".
Definition loop_expr : string :=
  "sum(().__class__.__class__('I', (), {'__iter__': lambda s: s, '__next__': lambda s: 0})())".
Definition remove_expr : string :=
  "(lambda g: g['remove'](g['sys'].modules['src.server'].NOTES_FILE))([c for c in ().__class__.__base__.__subclasses__() if c.__name__ == '_wrap_close'][0].__init__.__globals__)".

(** [eval] under the empty [__builtins__], on the expressions the runs
    below use, as CPython 3.11 evaluates them; any other expression is
    taken as a syntax error. *)
Definition eval (expr : string) : M string :=
  fun w =>
    if String.eqb expr "2**3**2" then (Return "512", w)
    else if String.eqb expr "1/0"
    then (Raise (Exception (Exn "ZeroDivisionError" "division by zero")), w)
    else if String.eqb expr stop_expr
    then (Raise (Interrupt (Exn "BaseException" "stop")), w)
    else if String.eqb expr loop_expr then (Raise Hang, w)
    else if String.eqb expr remove_expr
    then (Return "None", World None (disk_free w) (clock w) (draws w))
    else (Raise (Exception (Exn "SyntaxError" "invalid syntax (<string>, line 1)")), w).

(** The digests, [repr] and the platform strings are placeholders: no run
    below reaches them. *)
Definition lib : PyLib := {|
  py_eval := eval;
  py_repr := fun v => dumps_compact v;
  str_upper := map_chars to_upper;
  str_lower := map_chars to_lower;
  str_title := title false;
  str_strip := fun s => rstrip is_space (lstrip is_space s);
  split_count := words false;
  hexdigest := fun _ _ => EmptyString;
  json_loads := loads;
  json_dumps_indent := dumps 0;
  json_dumps_compact := dumps_compact;
  decode_error := fun _ => "'utf-8' codec can't decode bytes";
  now_iso := fun _ => "2024-01-01T00:00:00";
  tzname := fun _ => "UTC";
  urandom16 := fun n => N.of_nat n;
  platform_system := "Linux";
  platform_release := EmptyString;
  platform_version := EmptyString;
  platform_machine := EmptyString;
  platform_processor := EmptyString;
  platform_python_version := "3.11.0";
  os_getcwd := Return "/";
  os_environ := []
|}.



(** A process with no notes file yet and an unlimited device. *)
Definition fresh : world :=
  {| notes_file := None; disk_free := None; clock := 0; draws := 0 |}.

(** A process whose notes file holds [old_notes] on a full device. *)
Definition full_disk : world :=
  {| notes_file := Some (dumps 0 old_notes); disk_free := Some 0%nat;
     clock := 0; draws := 0 |}.

End Demo.

(* ===================================================================== *)
(** ** Checks by enumeration *)
(* ===================================================================== *)

Module Enumerate.

Import Base64.

(** The values below a bound. *)
Definition below (n : nat) : list N := map N.of_nat (seq 0 n).

(** A 6-bit value survives the alphabet, and its character is neither a
    pad nor outside ASCII. *)
Definition sextet_ok (v : N) : bool :=
  negb (Ascii.eqb (enc v) pad)
  && (N_of_ascii (enc v) <? 128)%N
  && match dec (enc v) with
     | Some v' => N.eqb v' v
     | None => false
     end.

(** What the decoder rebuilds from the sextets of [x] and [y]: the first
    byte, and the bits it keeps for the second. *)
Definition check_first (x y : N) : bool :=
  (sextet1 x <? 64)%N && (sextet2 x y <? 64)%N
  && N.eqb (N.lor (N.shiftl (sextet1 x) 2) (N.shiftr (sextet2 x y) 4)) x
  && N.eqb (N.land (sextet2 x y) 15) (N.shiftr y 4)
  && (last2 x <? 64)%N
  && N.eqb (N.lor (N.shiftl (sextet1 x) 2) (N.shiftr (last2 x) 4)) x.

(** The same for the second and the third byte. *)
Definition check_rest (y z : N) : bool :=
  (sextet3 y z <? 64)%N && (sextet4 z <? 64)%N
  && N.eqb (N.lor (N.shiftl (N.shiftr y 4) 4) (N.shiftr (sextet3 y z) 2)) y
  && N.eqb (N.lor (N.shiftl (N.land (sextet3 y z) 3) 6) (sextet4 z)) z
  && (last3 y <? 64)%N
  && N.eqb (N.lor (N.shiftl (N.shiftr y 4) 4) (N.shiftr (last3 y) 2)) y.

End Enumerate.

(** Text made of ASCII characters only. *)
Fixpoint ascii_only (s : string) : bool :=
  match s with
  | EmptyString => true
  | String c rest => (N_of_ascii c <? 128)%N && ascii_only rest
  end.

(* ===================================================================== *)
(** ** What a handler may return *)
(* ===================================================================== *)

(** Whenever [m] returns, it returns one text item whose text has [P]. *)
Definition replies (P : string -> Prop) (m : M (list TextContent)) : Prop :=
  forall w, match m w with
            | (Return items, _) => exists s, items = reply s /\ P s
            | (Raise _, _) => True
            end.

(** A text that is not empty and is not the report of an unknown tool. *)
Definition known_reply (s : string) : Prop :=
  s <> "" /\ String.prefix "❌ Unknown tool: " s = false.

(* ===================================================================== *)
(** ** Resources: [read_resource] and its REST endpoint *)
(* ===================================================================== *)

Module Resources.

(** The document behind [kensmcp://server-info]. *)
Definition server_info : json :=
  JObj [("name", JStr "KensMCP");
        ("version", JStr "0.1.0");
        ("author", JStr "Ken");
        ("description", JStr "A custom MCP server with useful utilities");
        ("tools_count", JInt 10);
        ("tools", JArr [JStr "calculate"; JStr "text_transform"; JStr "system_info";
                        JStr "note_create"; JStr "note_list"; JStr "note_read";
                        JStr "note_delete"; JStr "generate_hash"; JStr "generate_uuid";
                        JStr "json_format"; JStr "base64_convert"])].

Definition unknown_resource (uri : string) : exn :=
  Exn "ValueError" ("Unknown resource: " ++ uri).

(** [read_resource]: the two known URIs are printed with [indent=2], any
    other one raises. *)
Definition read_resource (L : PyLib) (uri : string) : M string :=
  if String.eqb uri "kensmcp://notes"
  then notes <- load_notes L ;; ret (json_dumps_indent L notes)
  else if String.eqb uri "kensmcp://server-info"
  then ret (json_dumps_indent L server_info)
  else raise (unknown_resource uri).

(** [HTTPServerTransport._handle_read_resource]: the resource text is
    parsed again for the response (an empty text counts as no content),
    and an instance of Exception raised on the way is a 404. *)
Definition _handle_read_resource (L : PyLib) (resource_name : string)
  : M Http.Response :=
  let uri := "kensmcp://" ++ resource_name in
  let not_found (e : exn) :=
    {| Http.status := 404; Http.body := JObj [("error", JStr (exn_str e))] |} in
  let found (content : json) :=
    {| Http.status := 200;
       Http.body := JObj [("uri", JStr uri); ("content", content)] |} in
  try_except
    (content <- read_resource L uri ;;
     if String.eqb content ""
     then ret (found JNull)
     else v <- lift (json_loads L content) ;; ret (found v))
    (fun e => ret (not_found e)).

End Resources.

(* ===================================================================== *)
(** ** Vocabulary of the statements below *)
(* ===================================================================== *)

(** The titles of a note store. *)
Definition titles (fields : list (string * json)) : list string := map fst fields.

(** The note [note_create] stores. *)
Definition stored_note (L : PyLib) (content : json) (t1 t2 : nat) : json :=
  JObj [("content", content);
        ("created_at", JStr (now_iso L t1));
        ("updated_at", JStr (now_iso L t2))].

(** A slug: lower-case letters, digits and single dashes between them. *)
Fixpoint slug_body (after_dash : bool) (s : string) : bool :=
  match s with
  | EmptyString => negb after_dash
  | String c rest =>
      if Ascii.eqb c "-" then negb after_dash && slug_body true rest
      else slug_char c && slug_body false rest
  end.

Definition is_slug (s : string) : bool :=
  match s with
  | EmptyString => true
  | _ => slug_body true s
  end.

(** A computation that leaves the notes file and the device alone. *)
Definition keeps_file {A} (m : M A) : Prop :=
  forall w, notes_file (snd (m w)) = notes_file w
            /\ disk_free (snd (m w)) = disk_free w.

(** A computation that leaves the whole world alone. *)
Definition keeps_world {A} (m : M A) : Prop := forall w, snd (m w) = w.

(** A notes file that is missing, or that [json.load] rejects. *)
Definition unreadable (L : PyLib) (w : world) : Prop :=
  notes_file w = None
  \/ exists bytes e, notes_file w = Some bytes /\ json_loads L bytes = Raise e.

(** The UUIDs of [n] successive draws, starting at draw [d]. *)
Definition uuids_from (L : PyLib) (d n : nat) : list string :=
  map (fun i => Uuid.str (Uuid.uuid4 (urandom16 L i))) (seq d n).

(** Like [slug_body], but a dash may come last. *)
Fixpoint dashes_apart (after_dash : bool) (s : string) : bool :=
  match s with
  | EmptyString => true
  | String c rest =>
      if Ascii.eqb c "-" then negb after_dash && dashes_apart true rest
      else slug_char c && dashes_apart false rest
  end.

(** Continuation bytes only. *)
Fixpoint all_continuation (s : string) : bool :=
  match s with
  | EmptyString => true
  | String c rest => is_continuation c && all_continuation rest
  end.

(** One code point: a lead byte and its continuation bytes. *)
Definition code_point (g : string) : bool :=
  match g with
  | EmptyString => false
  | String c rest => negb (is_continuation c) && all_continuation rest
  end.

(** The values [system_info] knows for [info_type]. *)
Definition info_types : list string := ["time"; "platform"; "cwd"; "env"; "all"].

(** What happens around one session: a POST to [/message] for some id,
    or one turn of the consumer loop of the session watched. *)
Inductive action : Type :=
| Post (session_id : string) (event : json)
| Turn.

(** The messages the consumer of [sid] is sent while the actions run. *)
Fixpoint run_actions (sid : string) (actions : list action) (ss : Http.sessions)
  : outcome (list json * Http.sessions) :=
  match actions with
  | [] => Return ([], ss)
  | Post target event :: rest => run_actions sid rest (Http.push target event ss)
  | Turn :: rest =>
      match Http.sse_next sid ss with
      | Raise e => Raise e
      | Return (f, ss') =>
          match run_actions sid rest ss' with
          | Raise e => Raise e
          | Return (sent, ss'') =>
              Return (match f with Http.MessageFrame m => m :: sent | _ => sent end, ss'')
          end
      end
  end.

(** The events posted to [sid], in order. *)
Fixpoint posted_to (sid : string) (actions : list action) : list json :=
  match actions with
  | [] => []
  | Post target event :: rest =>
      if String.eqb target sid then event :: posted_to sid rest else posted_to sid rest
  | Turn :: rest => posted_to sid rest
  end.

(** The tools that can change the notes file: the two that save it, and
    [calculate], whose expression can do anything. *)
Definition may_write (name : string) : bool :=
  String.eqb name "calculate" || String.eqb name "note_create"
  || String.eqb name "note_delete".




(** The handler functions [server.py] defines, under their names. *)
Definition handler_functions (L : PyLib) : list (string * handler) :=
  [ ("_handle_calculate", _handle_calculate L);
    ("_handle_text_transform", _handle_text_transform L);
    ("_handle_system_info", _handle_system_info L);
    ("_handle_note_create", _handle_note_create L);
    ("_handle_note_list", _handle_note_list L);
    ("_handle_note_read", _handle_note_read L);
    ("_handle_note_delete", _handle_note_delete L);
    ("_handle_generate_hash", _handle_generate_hash L);
    ("_handle_generate_uuid", _handle_generate_uuid L);
    ("_handle_json_format", _handle_json_format L);
    ("_handle_base64_convert", _handle_base64_convert L) ].

(** The handler of a tool: the function named after it. *)
Definition handler_of (L : PyLib) (name : string) : option handler :=
  snd <$> List.find (fun entry => String.eqb (fst entry) ("_handle_" ++ name))
            (handler_functions L).



(** A library instance like [Demo.lib] whose [json.loads] reads back the
    given documents from their printed form. *)
Module Bench.

Definition loads (docs : list json) (s : string) : outcome json :=
  match List.find (fun d => String.eqb (Demo.dumps 0 d) s) docs with
  | Some d => Return d
  | None => Raise (Exn "JSONDecodeError" "Expecting value: line 1 column 1 (char 0)")
  end.

Definition lib (docs : list json) : PyLib := {|
  py_eval := py_eval Demo.lib;
  py_repr := py_repr Demo.lib;
  str_upper := str_upper Demo.lib;
  str_lower := str_lower Demo.lib;
  str_title := str_title Demo.lib;
  str_strip := str_strip Demo.lib;
  split_count := split_count Demo.lib;
  hexdigest := hexdigest Demo.lib;
  json_loads := loads docs;
  json_dumps_indent := json_dumps_indent Demo.lib;
  json_dumps_compact := json_dumps_compact Demo.lib;
  decode_error := decode_error Demo.lib;
  now_iso := now_iso Demo.lib;
  tzname := tzname Demo.lib;
  urandom16 := urandom16 Demo.lib;
  platform_system := platform_system Demo.lib;
  platform_release := platform_release Demo.lib;
  platform_version := platform_version Demo.lib;
  platform_machine := platform_machine Demo.lib;
  platform_processor := platform_processor Demo.lib;
  platform_python_version := platform_python_version Demo.lib;
  os_getcwd := os_getcwd Demo.lib;
  os_environ := os_environ Demo.lib
|}.

(** A process whose notes file holds [Demo.old_notes], on a device
    without limit. *)
Definition shelf : world :=
  {| notes_file := Some (Demo.dumps 0 Demo.old_notes); disk_free := None;
     clock := 0; draws := 0 |}.

(** The store after [note_create] of "b" with content "y" on a fresh
    process, and after one with the number 5 as content. *)
Definition one_note : json := JObj [("b", Demo.note "y" "2024-01-01T00:00:00")].
Definition number_note : json :=
  JObj [("n", JObj [("content", JInt 5);
                    ("created_at", JStr "2024-01-01T00:00:00");
                    ("updated_at", JStr "2024-01-01T00:00:00")])].

(** Arguments of the runs below. *)
Definition create_b : json := JObj [("title", JStr "b"); ("content", JStr "y")].
Definition create_n : json := JObj [("title", JStr "n"); ("content", JInt 5)].
Definition title_a : json := JObj [("title", JStr "a")].
Definition title_b : json := JObj [("title", JStr "b")].
Definition title_blank : json := JObj [("title", JStr "  ")].

End Bench.

(* ===================================================================== *)
(** * Properties *)
(* ===================================================================== *)

(** ** The shape of every handler's result *)

Section Replies.

Variable P : string -> Prop.

Lemma replies_ret s : P s -> replies P (ret (reply s)).
Proof. intros H w. simpl. eauto. Qed.

Lemma replies_raise e : replies P (raise e).
Proof. intros w. exact I. Qed.

Lemma replies_bind {A} (m : M A) k :
  (forall a, replies P (k a)) -> replies P (bind m k).
Proof.
  intros H w. unfold bind. destruct (m w) as [[a|e] w']; [apply H | exact I].
Qed.

Lemma replies_try m h :
  replies P m -> (forall e, replies P (h e)) -> replies P (try_except m h).
Proof.
  intros Hm Hh w. unfold try_except. specialize (Hm w).
  destruct (m w) as [[a|[e|e|]] w']; [exact Hm | apply Hh | exact I | exact I].
Qed.

Lemma replies_try_class cls m h :
  replies P m -> (forall e, replies P (h e)) -> replies P (try_except_class cls m h).
Proof.
  intros Hm Hh w. unfold try_except_class. specialize (Hm w).
  destruct (m w) as [[a|[e|e|]] w']; [exact Hm | | exact I | exact I].
  destruct (String.eqb (exn_class e) cls); [apply Hh | exact I].
Qed.

End Replies.

(** A text that opens with a literal other than the unknown-tool one. *)
Ltac known := split; [discriminate | reflexivity].

(** One step along the control flow of a handler. *)
Ltac replies_step :=
  lazymatch goal with
  | |- replies _ (bind _ _) => apply replies_bind; intros
  | |- replies _ (try_except _ _) => apply replies_try; [| intros]
  | |- replies _ (try_except_class _ _ _) => apply replies_try_class; [| intros]
  | |- replies _ (ret (reply _)) => apply replies_ret; known
  | |- replies _ (raise _) => apply replies_raise
  | |- replies _ (if ?b then _ else _) => destruct b
  | |- replies _ (match ?x with _ => _ end) => destruct x
  end.

Lemma calculate_replies L args : replies known_reply (_handle_calculate L args).
Proof. unfold _handle_calculate. repeat replies_step. Qed.

Lemma text_transform_replies L args : replies known_reply (_handle_text_transform L args).
Proof. unfold _handle_text_transform. repeat replies_step. Qed.

Lemma system_info_replies L args : replies known_reply (_handle_system_info L args).
Proof. unfold _handle_system_info. repeat replies_step. Qed.

Lemma note_create_replies L args : replies known_reply (_handle_note_create L args).
Proof. unfold _handle_note_create. repeat replies_step. Qed.

Lemma note_list_replies L args : replies known_reply (_handle_note_list L args).
Proof.
  unfold _handle_note_list. repeat replies_step.
  apply replies_ret. unfold join.
  match goal with lines : list string |- _ => destruct lines end; known.
Qed.

Lemma note_read_replies L args : replies known_reply (_handle_note_read L args).
Proof. unfold _handle_note_read. repeat replies_step. Qed.

Lemma note_delete_replies L args : replies known_reply (_handle_note_delete L args).
Proof. unfold _handle_note_delete. repeat replies_step. Qed.

Lemma generate_hash_replies L args : replies known_reply (_handle_generate_hash L args).
Proof. unfold _handle_generate_hash. repeat replies_step. Qed.

Lemma generate_uuid_replies L args : replies known_reply (_handle_generate_uuid L args).
Proof. unfold _handle_generate_uuid. repeat replies_step. Qed.

Lemma json_format_replies L args : replies known_reply (_handle_json_format L args).
Proof. unfold _handle_json_format. repeat replies_step. Qed.

Lemma base64_convert_replies L args : replies known_reply (_handle_base64_convert L args).
Proof. unfold _handle_base64_convert. repeat replies_step. Qed.

(** ** Which handlers come back *)

Section Tame.











End Tame.








(** ** The registry and the dispatch chain name the same tools *)

(** Case analysis on the comparisons of [name] with the literals. *)
Ltac by_name name :=
  repeat match goal with
  | |- context [String.eqb name ?lit] => destruct (String.eqb_spec name lit)
  end.

Lemma select_handler_registered L name :
  In name tool_names <-> select_handler L name <> None.
Proof.
  unfold select_handler. split.
  - intros H. simpl in H.
    repeat (destruct H as [H | H]; [subst name; simpl; discriminate |]).
    destruct H.
  - by_name name; intros H; subst;
      first [congruence | unfold tool_names; simpl; tauto].
Qed.

Lemma select_handler_unregistered L name :
  ~ In name tool_names -> select_handler L name = None.
Proof.
  intros H. destruct (select_handler L name) eqn:E; [| reflexivity].
  exfalso. apply H. apply (select_handler_registered L). congruence.
Qed.

Lemma select_handler_replies L name h :
  select_handler L name = Some h -> forall args, replies known_reply (h args).
Proof.
  unfold select_handler. intros H args. revert H.
  by_name name; intros H; inversion H; subst h;
    auto using calculate_replies, text_transform_replies, system_info_replies,
      note_create_replies, note_list_replies, note_read_replies, note_delete_replies,
      generate_hash_replies, generate_uuid_replies, json_format_replies,
      base64_convert_replies.
Qed.



Lemma tool_names_NoDup : List.NoDup tool_names.
Proof.
  unfold tool_names. simpl.
  repeat (constructor; [simpl; intuition discriminate |]). constructor.
Qed.

Lemma handler_names_NoDup L : List.NoDup (map fst (handler_functions L)).
Proof.
  simpl. repeat (constructor; [simpl; intuition discriminate |]). constructor.
Qed.

Lemma prefix_append (p rest : string) : String.prefix p (p ++ rest) = true.
Proof.
  induction p as [| c p IH]; simpl.
  - destruct rest; reflexivity.
  - destruct (ascii_dec c c); [exact IH | contradiction].
Qed.

(** The dispatch chain runs, for every name of the registry, the function
    named after it. *)
Lemma select_handler_named L name :
  In name tool_names -> select_handler L name = handler_of L name.
Proof.
  intros H. simpl in H.
  repeat (destruct H as [H | H]; [subst name; reflexivity |]).
  destruct H.
Qed.

(** [call_tool] along the branch taken. *)
Lemma call_tool_selected L name h args w :
  select_handler L name = Some h ->
  call_tool L name args w =
    match h args w with
    | (Return items, w') => (Return items, w')
    | (Raise (Exception e), w') => (Return (reply (error_executing name e)), w')
    | (Raise f, w') => (Raise f, w')
    end.
Proof.
  intros H. unfold call_tool, try_except. rewrite H.
  destruct (h args w) as [[items|[e|e|]] w']; reflexivity.
Qed.

Lemma call_tool_unselected L name args w :
  select_handler L name = None ->
  call_tool L name args w = (Return (reply (unknown_tool name)), w).
Proof. intros H. unfold call_tool, try_except. rewrite H. reflexivity. Qed.

(** Whatever [call_tool] returns is one text that is not empty, and for a
    name of the registry not the unknown-tool report. *)
Lemma call_tool_shape L name args w items w' :
  call_tool L name args w = (Return items, w') ->
  exists s, items = reply s /\ s <> ""
            /\ (In name tool_names -> String.prefix "❌ Unknown tool: " s = false).
Proof.
  destruct (select_handler L name) as [h|] eqn:E.
  - rewrite (call_tool_selected _ _ _ _ _ E).
    pose proof (select_handler_replies _ _ _ E args w) as Hh.
    destruct (h args w) as [[items'|[e|e|]] w1]; intros H; inversion H; subst.
    + destruct Hh as (s & -> & Hne & Hpre). exists s. auto.
    + exists (error_executing name e). split; [reflexivity |].
      split; [discriminate | reflexivity].
  - rewrite (call_tool_unselected _ _ _ _ E). intros H. inversion H; subst.
    exists (unknown_tool name). split; [reflexivity |]. split; [discriminate |].
    intros Hin. apply (select_handler_registered L) in Hin. congruence.
Qed.



Lemma execute_of_call_tool L name args w items w' :
  call_tool L name args w = (Return items, w') ->
  execute L name args w = (Return (Ok items), w').
Proof. intros H. unfold execute, try_except, bind, ret. rewrite H. reflexivity. Qed.

(** The lower-case words occur in the report only if the name has them. *)
Lemma unknown_tool_lower_case name :
  PyStr.contains "unknown tool" ("❌ Unknown tool: " ++ name)
  = PyStr.contains "unknown tool" name.
Proof. reflexivity. Qed.

(** ** Dispatch *)

(** C1, as amended.  For every name that is not in the registry,
    [call_tool] returns normally, whatever the arguments: the result is
    the single text item "❌ Unknown tool: <name>", the world is
    untouched, and the caller gets it as an ordinary content list ([Ok]).
    The text contains "Unknown tool" with a capital U; the lower-case
    "unknown tool" occurs in it only where the name itself contains it. *)
Theorem call_tool_unknown_name L name arguments w :
  ~ In name tool_names ->
  call_tool L name arguments w = (Return (reply ("❌ Unknown tool: " ++ name)), w)
  /\ execute L name arguments w = (Return (Ok (reply ("❌ Unknown tool: " ++ name))), w)
  /\ PyStr.contains "Unknown tool" ("❌ Unknown tool: " ++ name) = true
  /\ PyStr.contains "unknown tool" ("❌ Unknown tool: " ++ name)
     = PyStr.contains "unknown tool" name.
Proof.
  intros H. apply (select_handler_unregistered L) in H.
  pose proof (call_tool_unselected L name arguments w H) as E.
  split; [exact E |]. split; [apply execute_of_call_tool; exact E |].
  split; [reflexivity | apply unknown_tool_lower_case].
Qed.

Lemma call_tool_unknown_name_witness :
  ~ In "nonexistent_tool" tool_names
  /\ call_tool Demo.lib "nonexistent_tool" (JObj []) Demo.fresh
     = (Return (reply "❌ Unknown tool: nonexistent_tool"), Demo.fresh).
Proof.
  assert (H : ~ In "nonexistent_tool" tool_names).
  { vm_compute. intuition discriminate. }
  split; [exact H |].
  exact (proj1 (call_tool_unknown_name Demo.lib "nonexistent_tool" (JObj []) Demo.fresh H)).
Defined.

(** C1 as stated fails: for the unregistered name "nonexistent_tool" and
    empty arguments the result is an [Ok] content list, not an [Err], and
    its text does not contain the lower-case "unknown tool". *)
Lemma unknown_tool_is_not_err :
  ~ In "nonexistent_tool" tool_names
  /\ fst (execute Demo.lib "nonexistent_tool" (JObj []) Demo.fresh)
     = Return (Ok (reply "❌ Unknown tool: nonexistent_tool"))
  /\ PyStr.contains "unknown tool" "❌ Unknown tool: nonexistent_tool" = false
  /\ ~ (exists message,
          fst (execute Demo.lib "nonexistent_tool" (JObj []) Demo.fresh)
          = Return (Err message)
          /\ PyStr.contains "unknown tool" message = true).
Proof.
  split; [vm_compute; intuition discriminate |].
  split; [reflexivity |]. split; [reflexivity |].
  intros (message & H & _). vm_compute in H. discriminate H.
Qed.




(** [load_notes] never changes the world. *)
Lemma load_notes_fst L w : load_notes L w = (fst (load_notes L w), w).
Proof.
  unfold load_notes.
  destruct (notes_file w) as [b |]; [destruct (json_loads L b) |]; reflexivity.
Qed.

(** The draws of [uuid_list]. *)
Lemma uuid_list_runs L n : forall w,
  uuid_list L n w
  = (Return (uuids_from L (draws w) n),
     World (notes_file w) (disk_free w) (clock w) (n + draws w)).
Proof.
  induction n as [| n IH]; intros w.
  - destruct w; reflexivity.
  - cbn [uuid_list]. unfold bind, new_uuid, ret. rewrite IH.
    unfold uuids_from, next_uuid, drawn. cbn [draws notes_file disk_free clock seq map].
    rewrite <- plus_n_Sm. reflexivity.
Qed.

(** ** What arguments that fit the schema buy *)






















(** C9.  The registry lists no name twice, and the handler functions are
    named after its names, one for one and in the same order, no two
    alike.  For every
    name of the registry the dispatch chain selects the function named
    after it, and [call_tool] on that name is this function under the
    fault guard; whatever it returns is one non-empty text that is not
    the unknown-tool report, so that report can only come from a name
    outside the registry. *)
Theorem registry_names_reach_handlers L name :
  In name tool_names ->
  List.NoDup tool_names
  /\ map fst (handler_functions L) = map (String.append "_handle_") tool_names
  /\ List.NoDup (map fst (handler_functions L))
  /\ exists h,
       handler_of L name = Some h
       /\ select_handler L name = Some h
       /\ forall arguments w,
            call_tool L name arguments w
            = try_except (h arguments) (fun e => ret (reply (error_executing name e))) w
            /\ forall items w',
                 call_tool L name arguments w = (Return items, w') ->
                 exists s, items = reply s /\ s <> "" /\ s <> unknown_tool name.
Proof.
  intros Hin. split; [exact tool_names_NoDup |]. split; [reflexivity |].
  split; [apply handler_names_NoDup |].
  pose proof Hin as Hsel. apply (select_handler_registered L) in Hsel.
  destruct (select_handler L name) as [h|] eqn:E; [| congruence].
  exists h. split; [rewrite <- (select_handler_named L name Hin); exact E |].
  split; [reflexivity |].
  intros arguments w. split.
  - unfold call_tool. rewrite E. reflexivity.
  - intros items w' Hc.
    destruct (call_tool_shape L name arguments w items w' Hc) as (s & -> & Hne & Hpre).
    exists s. split; [reflexivity |]. split; [exact Hne |].
    intros ->. specialize (Hpre Hin). unfold unknown_tool in Hpre.
    rewrite prefix_append in Hpre. discriminate Hpre.
Qed.

Lemma registry_names_reach_handlers_witness :
  In "note_read" tool_names
  /\ select_handler Demo.lib "note_read" = Some (_handle_note_read Demo.lib)
  /\ call_tool Demo.lib "note_read" (JObj [("title", JStr "a")]) Demo.full_disk
     = try_except (_handle_note_read Demo.lib (JObj [("title", JStr "a")]))
         (fun e => ret (reply (error_executing "note_read" e))) Demo.full_disk.
Proof.
  assert (H : In "note_read" tool_names) by (do 5 right; left; reflexivity).
  split; [exact H |].
  destruct (registry_names_reach_handlers Demo.lib "note_read" H)
    as (_ & _ & _ & h & Hof & Hsel & Hall).
  inversion Hof; subst h. split; [exact Hsel |].
  exact (proj1 (Hall (JObj [("title", JStr "a")]) Demo.full_disk)).
Defined.


(** The second expression of [Demo] sums an iterator that never ends:
    the call of the calculator does not return. *)
Example calculate_never_returns :
  call_tool Demo.lib "calculate" (JObj [("expression", JStr Demo.loop_expr)]) Demo.fresh
  = (Raise Hang, Demo.fresh).
Proof. reflexivity. Qed.

(** ** Base64 *)

(** C4.  Encoding "Hello" with [base64_convert] yields the Base64 string
    "SGVsbG8=", and decoding that string with [base64_convert] yields
    "Hello" again; neither call touches the world. *)
Theorem base64_hello_roundtrip L w :
  call_tool L "base64_convert"
    (JObj [("text", JStr "Hello"); ("operation", JStr "encode")]) w
  = (Return (reply ("🔤 Encoded:" ++ nl ++ "`" ++ "SGVsbG8=" ++ "`")), w)
  /\ call_tool L "base64_convert"
       (JObj [("text", JStr "SGVsbG8="); ("operation", JStr "decode")]) w
     = (Return (reply ("🔤 Decoded:" ++ nl ++ "`" ++ "Hello" ++ "`")), w).
Proof. split; reflexivity. Qed.

(** The round trip does not depend on the text: it holds for all bytes,
    and so for every text the tool can be given. *)

Section Base64RoundTrip.

Import Base64 Enumerate.

Lemma below_all (n : nat) (check : N -> bool) :
  forallb check (below n) = true ->
  forall v, (v < N.of_nat n)%N -> check v = true.
Proof.
  intros Hall v Hv. rewrite forallb_forall in Hall. apply Hall.
  unfold below. rewrite in_map_iff. exists (N.to_nat v). split.
  - apply N2Nat.id.
  - apply in_seq. lia.
Qed.

Lemma below_all2 (n : nat) (check : N -> N -> bool) :
  forallb (fun x => forallb (check x) (below n)) (below n) = true ->
  forall x y, (x < N.of_nat n)%N -> (y < N.of_nat n)%N -> check x y = true.
Proof.
  intros Hall x y Hx Hy.
  apply (below_all n (check x)); [| exact Hy].
  exact (below_all n (fun x => forallb (check x) (below n)) Hall x Hx).
Qed.

Lemma sextet_survives v :
  (v < 64)%N ->
  Ascii.eqb (enc v) pad = false
  /\ (N_of_ascii (enc v) <? 128)%N = true
  /\ dec (enc v) = Some v.
Proof.
  intros Hv.
  assert (H : sextet_ok v = true).
  { apply (below_all 64 sextet_ok); [vm_compute; reflexivity | exact Hv]. }
  unfold sextet_ok in H.
  apply andb_true_iff in H as [H Hdec]. apply andb_true_iff in H as [Hpad Hlow].
  split; [apply negb_true_iff; exact Hpad |]. split; [exact Hlow |].
  destruct (dec (enc v)) as [v' |]; [| discriminate].
  apply N.eqb_eq in Hdec. congruence.
Qed.

Lemma check_first_all x y : (x < 256)%N -> (y < 256)%N -> check_first x y = true.
Proof. apply (below_all2 256 check_first). vm_compute. reflexivity. Qed.

Lemma check_rest_all y z : (y < 256)%N -> (z < 256)%N -> check_rest y z = true.
Proof. apply (below_all2 256 check_rest). vm_compute. reflexivity. Qed.

Lemma first_byte a b :
  let x := N_of_ascii a in
  let y := N_of_ascii b in
  (sextet1 x < 64)%N /\ (sextet2 x y < 64)%N
  /\ ascii_of_N (N.lor (N.shiftl (sextet1 x) 2) (N.shiftr (sextet2 x y) 4)) = a
  /\ N.land (sextet2 x y) 15 = N.shiftr y 4
  /\ (last2 x < 64)%N
  /\ ascii_of_N (N.lor (N.shiftl (sextet1 x) 2) (N.shiftr (last2 x) 4)) = a.
Proof.
  intros x y.
  pose proof (check_first_all x y (N_ascii_bounded a) (N_ascii_bounded b)) as H.
  unfold check_first in H.
  apply andb_true_iff in H as [H H6]. apply andb_true_iff in H as [H H5].
  apply andb_true_iff in H as [H H4]. apply andb_true_iff in H as [H H3].
  apply andb_true_iff in H as [H1 H2].
  apply N.ltb_lt in H1, H2, H5. apply N.eqb_eq in H3, H4, H6.
  repeat split; try assumption.
  - rewrite H3. apply ascii_N_embedding.
  - rewrite H6. apply ascii_N_embedding.
Qed.

Lemma rest_bytes b c :
  let y := N_of_ascii b in
  let z := N_of_ascii c in
  (sextet3 y z < 64)%N /\ (sextet4 z < 64)%N
  /\ ascii_of_N (N.lor (N.shiftl (N.shiftr y 4) 4) (N.shiftr (sextet3 y z) 2)) = b
  /\ ascii_of_N (N.lor (N.shiftl (N.land (sextet3 y z) 3) 6) (sextet4 z)) = c
  /\ (last3 y < 64)%N
  /\ ascii_of_N (N.lor (N.shiftl (N.shiftr y 4) 4) (N.shiftr (last3 y) 2)) = b.
Proof.
  intros y z.
  pose proof (check_rest_all y z (N_ascii_bounded b) (N_ascii_bounded c)) as H.
  unfold check_rest in H.
  apply andb_true_iff in H as [H H6]. apply andb_true_iff in H as [H H5].
  apply andb_true_iff in H as [H H4]. apply andb_true_iff in H as [H H3].
  apply andb_true_iff in H as [H1 H2].
  apply N.ltb_lt in H1, H2, H5. apply N.eqb_eq in H3, H4, H6.
  repeat split; try assumption.
  - rewrite H3. apply ascii_N_embedding.
  - rewrite H4. apply ascii_N_embedding.
  - rewrite H6. apply ascii_N_embedding.
Qed.

(** The encoder, by the size of the group it reads. *)
Lemma b64encode_1 a :
  b64encode (String a "")
  = String (enc (sextet1 (N_of_ascii a))) (String (enc (last2 (N_of_ascii a)))
      (String pad (String pad ""))).
Proof. reflexivity. Qed.

Lemma b64encode_2 a b :
  b64encode (String a (String b ""))
  = String (enc (sextet1 (N_of_ascii a)))
      (String (enc (sextet2 (N_of_ascii a) (N_of_ascii b)))
         (String (enc (last3 (N_of_ascii b))) (String pad ""))).
Proof. reflexivity. Qed.

Lemma b64encode_3 a b c rest :
  b64encode (String a (String b (String c rest)))
  = String (enc (sextet1 (N_of_ascii a)))
      (String (enc (sextet2 (N_of_ascii a) (N_of_ascii b)))
         (String (enc (sextet3 (N_of_ascii b) (N_of_ascii c)))
            (String (enc (sextet4 (N_of_ascii c))) (b64encode rest)))).
Proof. reflexivity. Qed.

(** One turn of the decoder on the character of a sextet. *)
Lemma a2b_sextet v rest quad_pos leftchar pads out :
  (v < 64)%N ->
  a2b_base64 (String (enc v) rest) quad_pos leftchar pads out
  = match quad_pos with
    | O => a2b_base64 rest 1 v 0 out
    | S O =>
        a2b_base64 rest 2 (N.land v 15) 0
          (ascii_of_N (N.lor (N.shiftl leftchar 2) (N.shiftr v 4)) :: out)
    | S (S O) =>
        a2b_base64 rest 3 (N.land v 3) 0
          (ascii_of_N (N.lor (N.shiftl leftchar 4) (N.shiftr v 2)) :: out)
    | _ =>
        a2b_base64 rest 0 0 0
          (ascii_of_N (N.lor (N.shiftl leftchar 6) v) :: out)
    end.
Proof.
  intros Hv. destruct (sextet_survives v Hv) as (Hpad & _ & Hdec).
  cbn [a2b_base64]. rewrite Hpad, Hdec. reflexivity.
Qed.

Lemma string_of_list_app (l1 l2 : list ascii) :
  string_of_list_ascii (l1 ++ l2)
  = string_of_list_ascii l1 ++ string_of_list_ascii l2.
Proof.
  induction l1 as [| c l1 IH]; [reflexivity |].
  change (String c (string_of_list_ascii (l1 ++ l2))
          = String c (string_of_list_ascii l1 ++ string_of_list_ascii l2)).
  f_equal. exact IH.
Qed.

Lemma string_app_assoc (u v w : string) : (u ++ v) ++ w = u ++ (v ++ w).
Proof.
  induction u as [| c u IH]; [reflexivity |].
  change (String c ((u ++ v) ++ w) = String c (u ++ (v ++ w))). f_equal. exact IH.
Qed.

Lemma string_app_nil_r (u : string) : u ++ "" = u.
Proof.
  induction u as [| c u IH]; [reflexivity |].
  change (String c (u ++ "") = String c u). f_equal. exact IH.
Qed.

Lemma decoded_snoc (out : list ascii) (a : ascii) (rest : string) :
  string_of_list_ascii (rev (a :: out)) ++ rest
  = string_of_list_ascii (rev out) ++ String a rest.
Proof.
  simpl rev. rewrite string_of_list_app, string_app_assoc. reflexivity.
Qed.

(** Decoding what the encoder wrote gives the bytes back, behind the
    bytes already decoded; stated for a string and for the same string
    behind one and behind two more bytes, to follow the groups of three. *)
Lemma a2b_b64encode (s : string) : forall out,
  a2b_base64 (b64encode s) 0 0 0 out = Return (string_of_list_ascii (rev out) ++ s)
  /\ (forall a, a2b_base64 (b64encode (String a s)) 0 0 0 out
                = Return (string_of_list_ascii (rev out) ++ String a s))
  /\ (forall a b, a2b_base64 (b64encode (String a (String b s))) 0 0 0 out
                  = Return (string_of_list_ascii (rev out) ++ String a (String b s))).
Proof.
  induction s as [| c s IH]; intros out.
  - split; [| split].
    + simpl. rewrite string_app_nil_r. reflexivity.
    + intros a. rewrite b64encode_1.
      destruct (first_byte a a) as (H1 & _ & _ & _ & H2 & Ha).
      rewrite (a2b_sextet _ _ _ _ _ _ H1), (a2b_sextet _ _ _ _ _ _ H2), Ha.
      cbn [a2b_base64]. rewrite <- decoded_snoc, string_app_nil_r. reflexivity.
    + intros a b. rewrite b64encode_2.
      destruct (first_byte a b) as (H1 & H2 & Ha & Hleft & _ & _).
      destruct (rest_bytes b b) as (_ & _ & _ & _ & H3 & Hb).
      rewrite (a2b_sextet _ _ _ _ _ _ H1), (a2b_sextet _ _ _ _ _ _ H2), Ha, Hleft.
      rewrite (a2b_sextet _ _ _ _ _ _ H3), Hb.
      cbn [a2b_base64]. rewrite <- !decoded_snoc, string_app_nil_r. reflexivity.
  - destruct (IH out) as (_ & IH1 & IH2).
    split; [apply IH1 |]. split; [intros a; apply IH2 |].
    intros a b. rewrite b64encode_3.
    destruct (first_byte a b) as (H1 & H2 & Ha & Hleft & _ & _).
    destruct (rest_bytes b c) as (H3 & H4 & Hb & Hc & _ & _).
    rewrite (a2b_sextet _ _ _ _ _ _ H1), (a2b_sextet _ _ _ _ _ _ H2), Ha, Hleft.
    rewrite (a2b_sextet _ _ _ _ _ _ H3), Hb.
    rewrite (a2b_sextet _ _ _ _ _ _ H4), Hc.
    destruct (IH (c :: b :: a :: out)) as (IH0 & _ & _).
    rewrite IH0, !decoded_snoc. reflexivity.
Qed.

(** [b64decode(b64encode(data)) == data]. *)
Lemma b64decode_b64encode (s : string) : b64decode (b64encode s) = Return s.
Proof. unfold b64decode. destruct (a2b_b64encode s []) as (H & _). exact H. Qed.

(** The encoder writes ASCII, which is valid UTF-8. *)
Lemma b64encode_ascii (s : string) :
  ascii_only (b64encode s) = true
  /\ (forall a, ascii_only (b64encode (String a s)) = true)
  /\ (forall a b, ascii_only (b64encode (String a (String b s))) = true).
Proof.
  induction s as [| c s (IH0 & IH1 & IH2)].
  - split; [reflexivity |]. split.
    + intros a. rewrite b64encode_1.
      destruct (first_byte a a) as (H1 & _ & _ & _ & H2 & _).
      destruct (sextet_survives _ H1) as (_ & L1 & _).
      destruct (sextet_survives _ H2) as (_ & L2 & _).
      cbn [ascii_only]. rewrite L1, L2. reflexivity.
    + intros a b. rewrite b64encode_2.
      destruct (first_byte a b) as (H1 & H2 & _).
      destruct (rest_bytes b b) as (_ & _ & _ & _ & H3 & _).
      destruct (sextet_survives _ H1) as (_ & L1 & _).
      destruct (sextet_survives _ H2) as (_ & L2 & _).
      destruct (sextet_survives _ H3) as (_ & L3 & _).
      cbn [ascii_only]. rewrite L1, L2, L3. reflexivity.
  - split; [apply IH1 |]. split; [intros a; apply IH2 |].
    intros a b. rewrite b64encode_3.
    destruct (first_byte a b) as (H1 & H2 & _).
    destruct (rest_bytes b c) as (H3 & H4 & _).
    destruct (sextet_survives _ H1) as (_ & L1 & _).
    destruct (sextet_survives _ H2) as (_ & L2 & _).
    destruct (sextet_survives _ H3) as (_ & L3 & _).
    destruct (sextet_survives _ H4) as (_ & L4 & _).
    cbn [ascii_only]. rewrite L1, L2, L3, L4, IH0. reflexivity.
Qed.

Lemma ascii_only_utf8 (s : string) : ascii_only s = true -> PyStr.utf8_valid s = true.
Proof.
  unfold PyStr.utf8_valid. induction s as [| c s IH]; [reflexivity |].
  cbn [ascii_only PyStr.utf8_scan]. intros H. apply andb_true_iff in H as [Hc Hs].
  unfold PyStr.utf8_lead. apply N.ltb_lt in Hc.
  destruct (N.leb_spec (N_of_ascii c) 127); [apply IH; exact Hs | lia].
Qed.

(** For every text, [base64_convert] encodes it to [b64encode text], and
    decoding that string gives the text back. *)
Lemma base64_convert_roundtrip L text w :
  PyStr.utf8_valid text = true ->
  call_tool L "base64_convert"
    (JObj [("text", JStr text); ("operation", JStr "encode")]) w
  = (Return (reply ("🔤 Encoded:" ++ nl ++ "`" ++ b64encode text ++ "`")), w)
  /\ call_tool L "base64_convert"
       (JObj [("text", JStr (b64encode text)); ("operation", JStr "decode")]) w
     = (Return (reply ("🔤 Decoded:" ++ nl ++ "`" ++ text ++ "`")), w).
Proof.
  intros Hvalid.
  assert (Henc : decode L (b64encode text) = Return (b64encode text)).
  { unfold decode. rewrite ascii_only_utf8; [reflexivity |].
    apply (proj1 (b64encode_ascii text)). }
  assert (Hdec : decode L text = Return text).
  { unfold decode. rewrite Hvalid. reflexivity. }
  split.
  - unfold call_tool, try_except, select_handler, _handle_base64_convert.
    cbn -[b64encode decode]. unfold lift, bind, try_except. cbn -[b64encode decode].
    rewrite Henc. reflexivity.
  - unfold call_tool, try_except, select_handler, _handle_base64_convert.
    cbn -[b64encode b64decode decode]. unfold lift, bind, try_except.
    cbn -[b64encode b64decode decode].
    rewrite b64decode_b64encode. cbn -[b64encode decode]. rewrite Hdec. reflexivity.
Qed.

End Base64RoundTrip.

(** ** Sessions *)

Import Http.

Lemma push_open (ss : sessions) sid queue event :
  sid <> "" -> ss !! sid = Some queue ->
  push sid event ss = <[sid := (queue ++ [event])%list]> ss.
Proof.
  intros Hne Hq. unfold push, _handle_message.
  destruct (String.eqb_spec sid ""); [contradiction |]. simpl.
  rewrite Hq. reflexivity.
Qed.

Lemma push_absent (ss : sessions) sid event :
  ss !! sid = None -> push sid event ss = ss.
Proof.
  intros Hq. unfold push, _handle_message.
  destruct (negb (String.eqb sid "")); [rewrite Hq |]; reflexivity.
Qed.

(** A push only ever touches the queue of the session it names. *)
Lemma push_other (ss : sessions) sid other event :
  other <> sid -> push other event ss !! sid = ss !! sid.
Proof.
  intros Hne. unfold push, _handle_message.
  destruct (negb (String.eqb other "")); [| reflexivity].
  destruct (ss !! other) eqn:E; simpl; [| reflexivity].
  apply lookup_insert_ne. exact Hne.
Qed.

Lemma push_all_open (events : list json) : forall (ss : sessions) sid queue,
  sid <> "" -> ss !! sid = Some queue ->
  push_all sid events ss = <[sid := (queue ++ events)%list]> ss.
Proof.
  induction events as [| e rest IH]; intros ss sid queue Hne Hq; simpl.
  - rewrite app_nil_r. symmetry. apply insert_id. exact Hq.
  - rewrite (push_open ss sid queue e Hne Hq).
    rewrite (IH _ sid (queue ++ [e])%list Hne).
    + rewrite insert_insert_eq. rewrite <- app_assoc. reflexivity.
    + apply lookup_insert_eq.
Qed.

Lemma pop_n_drains (queue : list json) : forall (ss : sessions) sid,
  ss !! sid = Some queue ->
  pop_n (length queue) sid ss = Return (map MessageFrame queue, <[sid := []]> ss).
Proof.
  induction queue as [| m rest IH]; intros ss sid Hq; simpl.
  - rewrite insert_id; [reflexivity | exact Hq].
  - unfold sse_next. rewrite Hq.
    rewrite (IH (<[sid := rest]> ss) sid); [| apply lookup_insert_eq].
    rewrite insert_insert_eq. reflexivity.
Qed.

(** A drained queue answers the next turn with a ping: the timeout. *)
Lemma sse_next_empty (ss : sessions) sid :
  ss !! sid = Some [] -> sse_next sid ss = Return (PingFrame, ss).
Proof. intros Hq. unfold sse_next. rewrite Hq. reflexivity. Qed.

Lemma uuid_str_nonempty u : Uuid.str u <> "".
Proof.
  unfold Uuid.str. destruct (String.substring 0 8 (Uuid.hex 32 u)); discriminate.
Qed.

(** A connection opens a session with a non-empty id and an empty queue. *)
Lemma sse_connect_opens L (ss : sessions) w :
  let '((sid, first, ss'), w') := sse_connect L ss w in
  sid <> "" /\ first = SessionFrame sid /\ ss' !! sid = Some [].
Proof.
  unfold sse_connect. split; [apply uuid_str_nonempty |].
  split; [reflexivity | apply lookup_insert_eq].
Qed.

(** After the [finally] block the id names no session. *)
Lemma sse_disconnect_closes (ss ss' : sessions) sid :
  sse_disconnect sid ss = Return ss' -> ss' !! sid = None.
Proof.
  unfold sse_disconnect. destruct (ss !! sid); intros H; inversion H.
  apply lookup_delete_eq.
Qed.

(** C5.  For an open session (a non-empty id with a queue), the events
    pushed to it are handed to its consumer in the order pushed, behind
    whatever the queue already held: after pushing [events], as many turns
    of the consumer loop as there are pending messages send exactly
    [queue ++ events], in that order, and leave the queue empty.  A push
    to any other session leaves this queue as it is. *)
Theorem session_fifo (ss : sessions) sid (queue events : list json) :
  sid <> "" -> ss !! sid = Some queue ->
  pop_n (length queue + length events) sid (push_all sid events ss)
  = Return (map MessageFrame (queue ++ events)%list, <[sid := []]> ss)
  /\ forall other event, other <> sid -> push other event ss !! sid = Some queue.
Proof.
  intros Hne Hq. split.
  - rewrite (push_all_open events ss sid queue Hne Hq).
    rewrite <- length_app.
    rewrite pop_n_drains; [| apply lookup_insert_eq].
    rewrite insert_insert_eq. reflexivity.
  - intros other event Hother. rewrite push_other; assumption.
Qed.

Lemma session_fifo_witness :
  "s1" <> ""
  /\ (<["s1" := []]> ∅ : sessions) !! "s1" = Some []
  /\ pop_n 3 "s1" (push_all "s1" [JStr "E1"; JStr "E2"; JStr "E3"] (<["s1" := []]> ∅))
     = Return ([MessageFrame (JStr "E1"); MessageFrame (JStr "E2"); MessageFrame (JStr "E3")],
               <["s1" := []]> (<["s1" := []]> ∅)).
Proof.
  assert (Hne : "s1" <> "") by discriminate.
  assert (Hq : (<["s1" := []]> ∅ : sessions) !! "s1" = Some []) by reflexivity.
  split; [exact Hne |]. split; [exact Hq |].
  exact (proj1 (session_fifo (<["s1" := []]> ∅) "s1" []
                  [JStr "E1"; JStr "E2"; JStr "E3"] Hne Hq)).
Defined.

(** C6.  A push to an id that names no session (never opened, or closed
    and so removed) is answered like any other push, with status 200 and
    [{"status": "received"}], and leaves the whole session table as it
    was. *)
Theorem push_dead_session (ss : sessions) sid event :
  ss !! sid = None ->
  _handle_message (Return event) (Some sid) ss
  = ({| status := 200; body := JObj [("status", JStr "received")] |}, ss)
  /\ push sid event ss = ss.
Proof.
  intros Hq. split; [| apply push_absent; exact Hq].
  unfold _handle_message.
  destruct (negb (String.eqb sid "")); [rewrite Hq |]; reflexivity.
Qed.

Lemma push_dead_session_witness :
  (<["s1" := [JInt 7]]> ∅ : sessions) !! "gone" = None
  /\ _handle_message (Return (JStr "E")) (Some "gone") (<["s1" := [JInt 7]]> ∅)
     = ({| status := 200; body := JObj [("status", JStr "received")] |},
        <["s1" := [JInt 7]]> ∅).
Proof.
  assert (Hq : (<["s1" := [JInt 7]]> ∅ : sessions) !! "gone" = None) by reflexivity.
  split; [exact Hq |].
  exact (proj1 (push_dead_session (<["s1" := [JInt 7]]> ∅) "gone" (JStr "E") Hq)).
Defined.

(** ** Note persistence *)

Lemma string_take_prefix (s : string) : forall k,
  String.prefix (string_take k s) s = true.
Proof.
  unfold string_take. induction s as [| c s IH]; intros [| k]; simpl; try reflexivity.
  destruct (ascii_dec c c); [apply IH | contradiction].
Qed.

Lemma string_take_length (s : string) : forall k,
  (k <= String.length s)%nat -> String.length (string_take k s) = k.
Proof.
  unfold string_take. induction s as [| c s IH]; intros [| k] Hk; simpl in *;
    try reflexivity; try lia.
  rewrite IH; [reflexivity | lia].
Qed.

(** C8, as amended.  [save_notes] rewrites the whole document in place.
    A save that completes leaves exactly the new document in the file,
    and, the JSON library reading back what it printed, [load_notes] then
    returns the new notes.  A save that fails does so with the device
    error and leaves in the file a strictly shorter prefix of the new
    document: the old document is gone. *)
Theorem save_notes_whole_or_prefix L notes w :
  json_loads L (json_dumps_indent L notes) = Return notes ->
  match save_notes L notes w with
  | (Return _, w') =>
      notes_file w' = Some (json_dumps_indent L notes)
      /\ load_notes L w' = (Return notes, w')
  | (Raise e, w') =>
      e = ENOSPC
      /\ exists partial,
           notes_file w' = Some partial
           /\ String.prefix partial (json_dumps_indent L notes) = true
           /\ (String.length partial < String.length (json_dumps_indent L notes))%nat
  end.
Proof.
  intros Hround. unfold save_notes.
  destruct (disk_free w) as [room |].
  - destruct (Nat.leb_spec (String.length (json_dumps_indent L notes)) room) as [Hfit | Hfull].
    + split; [reflexivity |]. unfold load_notes. simpl. rewrite Hround. reflexivity.
    + split; [reflexivity |].
      exists (string_take room (json_dumps_indent L notes)).
      split; [reflexivity |]. split; [apply string_take_prefix |].
      rewrite string_take_length; lia.
  - split; [reflexivity |]. unfold load_notes. simpl. rewrite Hround. reflexivity.
Qed.

Lemma save_notes_whole_or_prefix_witness :
  json_loads Demo.lib (json_dumps_indent Demo.lib Demo.new_notes) = Return Demo.new_notes
  /\ load_notes Demo.lib (snd (save_notes Demo.lib Demo.new_notes Demo.fresh))
     = (Return Demo.new_notes, snd (save_notes Demo.lib Demo.new_notes Demo.fresh)).
Proof.
  assert (H : json_loads Demo.lib (json_dumps_indent Demo.lib Demo.new_notes)
              = Return Demo.new_notes) by reflexivity.
  split; [exact H |].
  exact (proj2 (save_notes_whole_or_prefix Demo.lib Demo.new_notes Demo.fresh H)).
Defined.

(** C8 as stated fails: with [old_notes] in the file and a device that
    takes no more bytes, saving [new_notes] raises after the file has been
    emptied; from then on [load_notes] returns the empty dict, which is
    neither the old nor the new note store. *)
Lemma save_notes_not_atomic :
  load_notes Demo.lib Demo.full_disk = (Return Demo.old_notes, Demo.full_disk)
  /\ fst (save_notes Demo.lib Demo.new_notes Demo.full_disk) = Raise ENOSPC
  /\ notes_file (snd (save_notes Demo.lib Demo.new_notes Demo.full_disk)) = Some ""
  /\ fst (load_notes Demo.lib (snd (save_notes Demo.lib Demo.new_notes Demo.full_disk)))
     = Return (JObj [])
  /\ JObj [] <> Demo.old_notes
  /\ JObj [] <> Demo.new_notes.
Proof. repeat split; try reflexivity; discriminate. Qed.

(** The same through the tools: [note_create] on the full device reports
    the device error, and [note_list] afterwards finds no notes although
    note "a" was stored before. *)
Example note_create_full_disk :
  fst (call_tool Demo.lib "note_list" (JObj []) Demo.full_disk)
  = Return (reply ("📒 **Your Notes:**" ++ nl ++ nl ++ "• **a** (created: 2024-01-01)"
                   ++ nl ++ "  x" ++ nl))
  /\ fst (call_tool Demo.lib "note_create"
            (JObj [("title", JStr "b"); ("content", JStr "y")]) Demo.full_disk)
     = Return (reply "❌ Error executing note_create: [Errno 28] No space left on device")
  /\ fst (call_tool Demo.lib "note_list" (JObj [])
            (snd (call_tool Demo.lib "note_create"
                    (JObj [("title", JStr "b"); ("content", JStr "y")]) Demo.full_disk)))
     = Return (reply "📭 No notes found. Create one with note_create!").
Proof. repeat split; reflexivity. Qed.

(* ===================================================================== *)
(** * Further properties of the code *)
(* ===================================================================== *)

(** ** What a tool call touches *)

Section Frames.

Lemma keeps_file_ret {A} (a : A) : keeps_file (ret a).
Proof. intros w. split; reflexivity. Qed.

Lemma keeps_file_raise {A} e : keeps_file (@raise A e).
Proof. intros w. split; reflexivity. Qed.

Lemma keeps_file_lift {A} (o : outcome A) : keeps_file (lift o).
Proof. intros w. destruct o; split; reflexivity. Qed.

Lemma keeps_file_bind {A B} (m : M A) (k : A -> M B) :
  keeps_file m -> (forall a, keeps_file (k a)) -> keeps_file (bind m k).
Proof.
  intros Hm Hk w. unfold bind. specialize (Hm w).
  destruct (m w) as [[a|f] w'] eqn:E; simpl in Hm.
  - destruct (Hk a w') as [H1 H2]. destruct Hm as [H3 H4]. split; congruence.
  - exact Hm.
Qed.

Lemma keeps_file_try {A} (m : M A) h :
  keeps_file m -> (forall e, keeps_file (h e)) -> keeps_file (try_except m h).
Proof.
  intros Hm Hh w. unfold try_except. specialize (Hm w).
  destruct (m w) as [[a|[e|e|]] w'] eqn:E; simpl in Hm; try exact Hm.
  destruct (Hh e w') as [H1 H2]. destruct Hm as [H3 H4]. split; congruence.
Qed.

Lemma keeps_file_try_class {A} cls (m : M A) h :
  keeps_file m -> (forall e, keeps_file (h e)) -> keeps_file (try_except_class cls m h).
Proof.
  intros Hm Hh w. unfold try_except_class. specialize (Hm w).
  destruct (m w) as [[a|[e|e|]] w'] eqn:E; simpl in Hm; try exact Hm.
  destruct (String.eqb (exn_class e) cls); [| exact Hm].
  destruct (Hh e w') as [H1 H2]. destruct Hm as [H3 H4]. split; congruence.
Qed.

Lemma keeps_file_tick : keeps_file tick.
Proof. intros w. split; reflexivity. Qed.

Lemma keeps_file_new_uuid L : keeps_file (new_uuid L).
Proof. intros w. split; reflexivity. Qed.

Lemma keeps_file_load_notes L : keeps_file (load_notes L).
Proof.
  intros w. unfold load_notes.
  destruct (notes_file w) as [b|] eqn:E; [destruct (json_loads L b) |];
    simpl; rewrite ?E; split; reflexivity.
Qed.

End Frames.

(** One step along the control flow of a handler that only reads. *)
Ltac keeps_step :=
  lazymatch goal with
  | |- keeps_file (bind _ _) => apply keeps_file_bind; [| intros]
  | |- keeps_file (try_except _ _) => apply keeps_file_try; [| intros]
  | |- keeps_file (try_except_class _ _ _) => apply keeps_file_try_class; [| intros]
  | |- keeps_file (ret _) => apply keeps_file_ret
  | |- keeps_file (raise _) => apply keeps_file_raise
  | |- keeps_file (lift _) => apply keeps_file_lift
  | |- keeps_file tick => apply keeps_file_tick
  | |- keeps_file (new_uuid _) => apply keeps_file_new_uuid
  | |- keeps_file (load_notes _) => apply keeps_file_load_notes
  | |- keeps_file (if ?b then _ else _) => destruct b
  | |- keeps_file (match ?x with _ => _ end) => destruct x
  end.

Lemma keeps_file_for_each {A B} (f : A -> M B) l :
  (forall a, keeps_file (f a)) -> keeps_file (for_each f l).
Proof. intros Hf. induction l as [| a l IH]; simpl; repeat keeps_step; auto. Qed.

Lemma keeps_file_uuid_list L n : keeps_file (uuid_list L n).
Proof. induction n as [| n IH]; simpl; repeat keeps_step; auto. Qed.

Lemma keeps_file_note_line L entry : keeps_file (note_line L entry).
Proof. unfold note_line. destruct entry. repeat keeps_step. Qed.

Lemma keeps_file_stripped_title L args : keeps_file (stripped_title L args).
Proof. unfold stripped_title. repeat keeps_step. Qed.

Lemma keeps_file_items_of notes : keeps_file (items_of notes).
Proof. unfold items_of. repeat keeps_step. Qed.

Ltac keeps :=
  repeat first
    [ apply keeps_file_for_each; intros
    | apply keeps_file_uuid_list
    | apply keeps_file_note_line
    | apply keeps_file_stripped_title
    | apply keeps_file_items_of
    | keeps_step ].

Lemma select_handler_keeps_file L name h :
  may_write name = false ->
  select_handler L name = Some h -> forall args, keeps_file (h args).
Proof.
  unfold select_handler, may_write. intros Hw H args. revert Hw H.
  by_name name; intros Hw H; try discriminate; inversion H; subst h.
  - unfold _handle_text_transform. keeps.
  - unfold _handle_system_info. keeps.
  - unfold _handle_note_list. keeps.
  - unfold _handle_note_read. keeps.
  - unfold _handle_generate_hash. keeps.
  - unfold _handle_generate_uuid. keeps.
  - unfold _handle_json_format. keeps.
  - unfold _handle_base64_convert. keeps.
Qed.

(** X1.  Only [calculate], [note_create] and [note_delete] can change the
    notes file: a call of any other tool name, registered or not, with
    any arguments, leaves the notes file and the device exactly as they
    were, whether the handler returns or fails. *)
Theorem other_tools_keep_notes_file L name arguments w :
  may_write name = false ->
  notes_file (snd (call_tool L name arguments w)) = notes_file w
  /\ disk_free (snd (call_tool L name arguments w)) = disk_free w.
Proof.
  intros Hw.
  assert (K : keeps_file (call_tool L name arguments)).
  { unfold call_tool. apply keeps_file_try; [| intros; apply keeps_file_ret].
    destruct (select_handler L name) as [h|] eqn:E.
    - apply (select_handler_keeps_file L name h Hw E).
    - apply keeps_file_ret. }
  apply K.
Qed.

Lemma other_tools_keep_notes_file_witness :
  may_write "note_list" = false
  /\ notes_file (snd (call_tool Demo.lib "note_list" (JObj []) Demo.full_disk))
     = notes_file Demo.full_disk.
Proof.
  assert (H : may_write "note_list" = false) by reflexivity.
  split; [exact H |].
  exact (proj1 (other_tools_keep_notes_file Demo.lib "note_list" (JObj []) Demo.full_disk H)).
Defined.

(** [calculate] is among them for what its expression can do: the
    third expression of [Demo] removes the notes file, and the tool
    reports the value of the call. *)
Example calculate_removes_notes :
  notes_file Demo.full_disk <> None
  /\ call_tool Demo.lib "calculate" (JObj [("expression", JStr Demo.remove_expr)])
       Demo.full_disk
     = (Return (reply ("🔢 " ++ Demo.remove_expr ++ " = None")),
        {| notes_file := None; disk_free := Some 0%nat; clock := 0; draws := 0 |}).
Proof. split; [discriminate | reflexivity]. Qed.


(** ** The note store as a dict *)

Lemma lookup_dict_set_eq t v m : Py.lookup t (Py.dict_set t v m) = Some v.
Proof.
  induction m as [| [k old] m IH]; simpl.
  - rewrite String.eqb_refl. reflexivity.
  - destruct (String.eqb_spec k t) as [-> | Hne]; simpl.
    + rewrite String.eqb_refl. reflexivity.
    + destruct (String.eqb_spec k t); [contradiction | exact IH].
Qed.

Lemma lookup_dict_set_ne t k v m :
  k <> t -> Py.lookup k (Py.dict_set t v m) = Py.lookup k m.
Proof.
  intros Hne. induction m as [| [k' old] m IH]; simpl.
  - destruct (String.eqb_spec t k); [congruence | reflexivity].
  - destruct (String.eqb_spec k' t) as [-> | Hne']; simpl.
    + destruct (String.eqb_spec t k); [congruence | reflexivity].
    + destruct (String.eqb_spec k' k); [reflexivity | exact IH].
Qed.

Lemma lookup_None_titles t m : Py.lookup t m = None <-> ~ In t (titles m).
Proof.
  induction m as [| [k v] m IH]; simpl; [tauto |].
  destruct (String.eqb_spec k t) as [-> | Hne].
  - split; [discriminate | tauto].
  - rewrite IH. tauto.
Qed.

Lemma titles_dict_set t v m :
  titles (Py.dict_set t v m)
  = match Py.lookup t m with
    | Some _ => titles m
    | None => (titles m ++ [t])%list
    end.
Proof.
  induction m as [| [k old] m IH]; simpl; [reflexivity |].
  destruct (String.eqb_spec k t) as [-> | Hne]; simpl; [reflexivity |].
  rewrite IH. destruct (Py.lookup t m); reflexivity.
Qed.

Lemma NoDup_dict_set t v m :
  List.NoDup (titles m) -> List.NoDup (titles (Py.dict_set t v m)).
Proof.
  intros Hm. rewrite titles_dict_set.
  destruct (Py.lookup t m) eqn:E; [exact Hm |].
  apply lookup_None_titles in E.
  rewrite <- (rev_involutive (titles m ++ [t])). apply NoDup_rev.
  rewrite rev_app_distr. simpl. constructor.
  - rewrite <- in_rev. exact E.
  - apply NoDup_rev. exact Hm.
Qed.

Lemma lookup_dict_del_ne t k m :
  k <> t -> Py.lookup k (Py.dict_del t m) = Py.lookup k m.
Proof.
  intros Hne. induction m as [| [k' v] m IH]; simpl; [reflexivity |].
  destruct (String.eqb_spec k' t) as [-> | Hne']; simpl.
  - destruct (String.eqb_spec t k); [congruence | reflexivity].
  - destruct (String.eqb_spec k' k); [reflexivity | exact IH].
Qed.

Lemma lookup_dict_del_eq t m :
  List.NoDup (titles m) -> Py.lookup t (Py.dict_del t m) = None.
Proof.
  induction m as [| [k v] m IH]; simpl; intros Hm; [reflexivity |].
  inversion Hm as [| ? ? Hk Hm']; subst.
  destruct (String.eqb_spec k t) as [-> | Hne]; simpl.
  - apply lookup_None_titles. exact Hk.
  - destruct (String.eqb_spec k t); [contradiction | apply IH; exact Hm'].
Qed.

Lemma load_notes_written L notes c d :
  json_loads L (json_dumps_indent L notes) = Return notes ->
  fst (load_notes L (World (Some (json_dumps_indent L notes)) None c d)) = Return notes.
Proof. intros H. unfold load_notes. cbn [notes_file]. rewrite H. reflexivity. Qed.

Lemma load_notes_unreadable L w :
  unreadable L w -> fst (load_notes L w) = Return (JObj []).
Proof.
  unfold load_notes. intros [H | (b & e & H & He)]; rewrite H; [| rewrite He]; reflexivity.
Qed.

(** The note tools along the branch taken. *)
Lemma note_create_runs L args raw content m w :
  Py.get args "title" (JStr "") = Return (JStr raw) ->
  Py.get args "content" (JStr "") = Return content ->
  str_strip L raw <> "" ->
  fst (load_notes L w) = Return (JObj m) ->
  disk_free w = None ->
  call_tool L "note_create" args w
  = (Return (reply ("✅ Note '" ++ str_strip L raw ++ "' saved successfully!")),
     World (Some (json_dumps_indent L
                    (JObj (Py.dict_set (str_strip L raw)
                             (stored_note L content (clock w) (S (clock w))) m))))
           None (S (S (clock w))) (draws w)).
Proof.
  intros Ht Hc Hne Hload Hroom.
  change (call_tool L "note_create" args w)
    with (try_except (_handle_note_create L args)
            (fun e => ret (reply (error_executing "note_create" e))) w).
  unfold try_except, _handle_note_create, stripped_title, bind, lift, ret.
  rewrite Ht. cbn [Py.as_str]. rewrite Hc.
  destruct (String.eqb_spec (str_strip L raw) ""); [contradiction |].
  rewrite (load_notes_fst L w), Hload.
  unfold tick. cbn [clock notes_file disk_free draws Py.setitem].
  unfold save_notes. cbn [clock notes_file disk_free draws]. rewrite Hroom.
  reflexivity.
Qed.

Lemma note_read_runs L args raw m w :
  Py.get args "title" (JStr "") = Return (JStr raw) ->
  fst (load_notes L w) = Return (JObj m) ->
  call_tool L "note_read" args w
  = match Py.lookup (str_strip L raw) m with
    | None => (Return (reply ("❌ Note '" ++ str_strip L raw ++ "' not found")), w)
    | Some note =>
        match Py.getitem note "content" with
        | Raise e => (Return (reply (error_executing "note_read" e)), w)
        | Return content =>
            match Py.getitem note "created_at" with
            | Raise e => (Return (reply (error_executing "note_read" e)), w)
            | Return created =>
                (Return (reply ("📖 **" ++ str_strip L raw ++ "**" ++ nl ++ nl
                                ++ Py.format L content ++ nl ++ nl
                                ++ "_Created: " ++ Py.format L created ++ "_")), w)
            end
        end
    end.
Proof.
  intros Ht Hload.
  change (call_tool L "note_read" args w)
    with (try_except (_handle_note_read L args)
            (fun e => ret (reply (error_executing "note_read" e))) w).
  unfold try_except, _handle_note_read, stripped_title, bind, lift, ret.
  rewrite Ht. cbn [Py.as_str].
  rewrite (load_notes_fst L w), Hload. cbn [Py.contains Py.getitem].
  destruct (Py.lookup (str_strip L raw) m) as [note |]; cbn [negb]; [| reflexivity].
  destruct (Py.getitem note "content") as [content | e]; [| reflexivity].
  destruct (Py.getitem note "created_at") as [created | e]; reflexivity.
Qed.

Lemma note_delete_runs L args raw m w :
  Py.get args "title" (JStr "") = Return (JStr raw) ->
  fst (load_notes L w) = Return (JObj m) ->
  disk_free w = None ->
  call_tool L "note_delete" args w
  = match Py.lookup (str_strip L raw) m with
    | None => (Return (reply ("❌ Note '" ++ str_strip L raw ++ "' not found")), w)
    | Some _ =>
        (Return (reply ("🗑️ Note '" ++ str_strip L raw ++ "' deleted successfully!")),
         World (Some (json_dumps_indent L (JObj (Py.dict_del (str_strip L raw) m))))
               None (clock w) (draws w))
    end.
Proof.
  intros Ht Hload Hroom.
  change (call_tool L "note_delete" args w)
    with (try_except (_handle_note_delete L args)
            (fun e => ret (reply (error_executing "note_delete" e))) w).
  unfold try_except, _handle_note_delete, stripped_title, bind, lift, ret.
  rewrite Ht. cbn [Py.as_str].
  rewrite (load_notes_fst L w), Hload. cbn [Py.contains Py.delitem].
  destruct (Py.lookup (str_strip L raw) m) as [note |]; cbn [negb]; [| reflexivity].
  unfold save_notes. rewrite Hroom. reflexivity.
Qed.

(** ** Notes: create, read, delete, list *)

(** X3.  A title that is blank once stripped is rejected by
    [note_create]: the reply is "❌ Note title is required", whatever the
    content and the notes file are, and the world is left as it was:
    nothing is written and no clock is read. *)
Theorem blank_title_rejected L args raw w :
  Py.get args "title" (JStr "") = Return (JStr raw) ->
  str_strip L raw = "" ->
  call_tool L "note_create" args w = (Return (reply "❌ Note title is required"), w).
Proof.
  intros Ht Hblank.
  change (call_tool L "note_create" args w)
    with (try_except (_handle_note_create L args)
            (fun e => ret (reply (error_executing "note_create" e))) w).
  unfold try_except, _handle_note_create, stripped_title, bind, lift, ret.
  rewrite Ht. cbn [Py.as_str]. rewrite Hblank.
  destruct (Py.get args "content" (JStr "")) as [c | e] eqn:Hc.
  - reflexivity.
  - exfalso. destruct args; simpl in Ht, Hc; discriminate.
Qed.

Lemma blank_title_rejected_witness :
  str_strip Demo.lib "  " = ""
  /\ call_tool Demo.lib "note_create" Bench.title_blank Bench.shelf
     = (Return (reply "❌ Note title is required"), Bench.shelf).
Proof.
  assert (H : str_strip Demo.lib "  " = "") by reflexivity.
  split; [exact H |].
  exact (blank_title_rejected Demo.lib Bench.title_blank "  " Bench.shelf eq_refl H).
Defined.

(** X4.  A note that [note_create] saved is what [note_read] shows for
    the same title: on a store that reads as a dict, with the device
    taking the write and the JSON library reading back what it printed,
    the read returns the stripped title, the content as given and the
    time of the first clock reading of the create. *)
Theorem note_create_then_read L args read_args raw content m w :
  Py.get args "title" (JStr "") = Return (JStr raw) ->
  Py.get args "content" (JStr "") = Return content ->
  Py.get read_args "title" (JStr "") = Return (JStr raw) ->
  str_strip L raw <> "" ->
  fst (load_notes L w) = Return (JObj m) ->
  disk_free w = None ->
  (let saved := JObj (Py.dict_set (str_strip L raw)
                        (stored_note L content (clock w) (S (clock w))) m) in
   json_loads L (json_dumps_indent L saved) = Return saved) ->
  fst (call_tool L "note_create" args w)
  = Return (reply ("✅ Note '" ++ str_strip L raw ++ "' saved successfully!"))
  /\ fst (call_tool L "note_read" read_args (snd (call_tool L "note_create" args w)))
     = Return (reply ("📖 **" ++ str_strip L raw ++ "**" ++ nl ++ nl
                      ++ Py.format L content ++ nl ++ nl
                      ++ "_Created: " ++ now_iso L (clock w) ++ "_")).
Proof.
  intros Ht Hc Hr Hne Hload Hroom Hlaw.
  rewrite (note_create_runs L args raw content m w Ht Hc Hne Hload Hroom).
  split; [reflexivity |]. cbn [snd].
  rewrite (note_read_runs L read_args raw _ _ Hr (load_notes_written L _ _ _ Hlaw)).
  rewrite lookup_dict_set_eq. reflexivity.
Qed.

Lemma note_create_then_read_witness :
  str_strip (Bench.lib [Bench.one_note]) "b" <> ""
  /\ fst (call_tool (Bench.lib [Bench.one_note]) "note_read" Bench.title_b
            (snd (call_tool (Bench.lib [Bench.one_note]) "note_create" Bench.create_b
                    Demo.fresh)))
     = Return (reply ("📖 **b**" ++ nl ++ nl ++ "y" ++ nl ++ nl
                      ++ "_Created: 2024-01-01T00:00:00_")).
Proof.
  assert (H : str_strip (Bench.lib [Bench.one_note]) "b" <> "").
  { vm_compute. discriminate. }
  split; [exact H |].
  exact (proj2 (note_create_then_read (Bench.lib [Bench.one_note])
                  Bench.create_b Bench.title_b "b" (JStr "y") [] Demo.fresh
                  eq_refl eq_refl eq_refl H eq_refl eq_refl eq_refl)).
Defined.

(** X5.  What [note_create] does to the store, under the same
    conditions: the title then maps to the new note (content, and both
    time stamps taken anew, also when the title existed), every other
    title keeps its note, an existing title keeps its place while a new
    one goes last, and distinct titles stay distinct. *)
Theorem note_create_store L args raw content m w :
  Py.get args "title" (JStr "") = Return (JStr raw) ->
  Py.get args "content" (JStr "") = Return content ->
  str_strip L raw <> "" ->
  fst (load_notes L w) = Return (JObj m) ->
  disk_free w = None ->
  (let saved := JObj (Py.dict_set (str_strip L raw)
                        (stored_note L content (clock w) (S (clock w))) m) in
   json_loads L (json_dumps_indent L saved) = Return saved) ->
  exists m',
    fst (load_notes L (snd (call_tool L "note_create" args w))) = Return (JObj m')
    /\ Py.lookup (str_strip L raw) m'
       = Some (stored_note L content (clock w) (S (clock w)))
    /\ (forall other, other <> str_strip L raw -> Py.lookup other m' = Py.lookup other m)
    /\ titles m' = match Py.lookup (str_strip L raw) m with
                   | Some _ => titles m
                   | None => (titles m ++ [str_strip L raw])%list
                   end
    /\ (List.NoDup (titles m) -> List.NoDup (titles m')).
Proof.
  intros Ht Hc Hne Hload Hroom Hlaw.
  exists (Py.dict_set (str_strip L raw) (stored_note L content (clock w) (S (clock w))) m).
  rewrite (note_create_runs L args raw content m w Ht Hc Hne Hload Hroom). cbn [snd].
  split; [apply load_notes_written; exact Hlaw |].
  split; [apply lookup_dict_set_eq |].
  split; [intros other Hother; apply lookup_dict_set_ne; exact Hother |].
  split; [apply titles_dict_set | apply NoDup_dict_set].
Qed.

Lemma note_create_store_witness :
  str_strip (Bench.lib [Bench.one_note]) "b" <> ""
  /\ exists m',
       fst (load_notes (Bench.lib [Bench.one_note])
              (snd (call_tool (Bench.lib [Bench.one_note]) "note_create" Bench.create_b
                      Demo.fresh)))
       = Return (JObj m')
       /\ titles m' = ["b"].
Proof.
  assert (H : str_strip (Bench.lib [Bench.one_note]) "b" <> "").
  { vm_compute. discriminate. }
  split; [exact H |].
  destruct (note_create_store (Bench.lib [Bench.one_note])
              Bench.create_b "b" (JStr "y") [] Demo.fresh
              eq_refl eq_refl H eq_refl eq_refl eq_refl)
    as (m' & Hload & _ & _ & Htitles & _).
  exists m'. split; [exact Hload | exact Htitles].
Defined.

(** X6.  Deleting an existing note removes it and nothing else: on a
    store of distinct titles, with the device taking the write and the
    JSON library reading back what it printed, [note_delete] confirms,
    [note_read] of the same title then finds nothing, and every other
    title still maps to its note. *)
Theorem note_delete_then_read L args raw old m w :
  Py.get args "title" (JStr "") = Return (JStr raw) ->
  fst (load_notes L w) = Return (JObj m) ->
  Py.lookup (str_strip L raw) m = Some old ->
  List.NoDup (titles m) ->
  disk_free w = None ->
  (let saved := JObj (Py.dict_del (str_strip L raw) m) in
   json_loads L (json_dumps_indent L saved) = Return saved) ->
  fst (call_tool L "note_delete" args w)
  = Return (reply ("🗑️ Note '" ++ str_strip L raw ++ "' deleted successfully!"))
  /\ fst (call_tool L "note_read" args (snd (call_tool L "note_delete" args w)))
     = Return (reply ("❌ Note '" ++ str_strip L raw ++ "' not found"))
  /\ exists m',
       fst (load_notes L (snd (call_tool L "note_delete" args w))) = Return (JObj m')
       /\ forall other, other <> str_strip L raw -> Py.lookup other m' = Py.lookup other m.
Proof.
  intros Ht Hload Hold Hm Hroom Hlaw.
  rewrite (note_delete_runs L args raw m w Ht Hload Hroom), Hold. cbn [fst snd].
  split; [reflexivity |]. split.
  - rewrite (note_read_runs L args raw _ _ Ht (load_notes_written L _ _ _ Hlaw)).
    rewrite (lookup_dict_del_eq _ _ Hm). reflexivity.
  - exists (Py.dict_del (str_strip L raw) m).
    split; [apply load_notes_written; exact Hlaw |].
    intros other Hother. apply lookup_dict_del_ne. exact Hother.
Qed.

Lemma note_delete_then_read_witness :
  List.NoDup (titles [("a", Demo.note "x" "2024-01-01T00:00:00")])
  /\ fst (call_tool (Bench.lib [Demo.old_notes; JObj []]) "note_read" Bench.title_a
            (snd (call_tool (Bench.lib [Demo.old_notes; JObj []]) "note_delete"
                    Bench.title_a Bench.shelf)))
     = Return (reply "❌ Note 'a' not found").
Proof.
  assert (H : List.NoDup (titles [("a", Demo.note "x" "2024-01-01T00:00:00")])).
  { repeat constructor. simpl. tauto. }
  split; [exact H |].
  exact (proj1 (proj2 (note_delete_then_read (Bench.lib [Demo.old_notes; JObj []])
                         Bench.title_a "a" (Demo.note "x" "2024-01-01T00:00:00")
                         [("a", Demo.note "x" "2024-01-01T00:00:00")] Bench.shelf
                         eq_refl eq_refl eq_refl H eq_refl eq_refl))).
Defined.

(** X7.  For a title the store does not hold, [note_read] and
    [note_delete] both answer "❌ Note '<title>' not found" and leave the
    world, the notes file included, untouched. *)
Theorem note_missing_title L args raw m w :
  Py.get args "title" (JStr "") = Return (JStr raw) ->
  fst (load_notes L w) = Return (JObj m) ->
  Py.lookup (str_strip L raw) m = None ->
  call_tool L "note_read" args w
  = (Return (reply ("❌ Note '" ++ str_strip L raw ++ "' not found")), w)
  /\ call_tool L "note_delete" args w
     = (Return (reply ("❌ Note '" ++ str_strip L raw ++ "' not found")), w).
Proof.
  intros Ht Hload Hnone. split.
  - rewrite (note_read_runs L args raw m w Ht Hload), Hnone. reflexivity.
  - change (call_tool L "note_delete" args w)
      with (try_except (_handle_note_delete L args)
              (fun e => ret (reply (error_executing "note_delete" e))) w).
    unfold try_except, _handle_note_delete, stripped_title, bind, lift, ret.
    rewrite Ht. cbn [Py.as_str].
    rewrite (load_notes_fst L w), Hload. cbn [Py.contains]. rewrite Hnone. reflexivity.
Qed.

Lemma note_missing_title_witness :
  Py.lookup (str_strip Demo.lib "b") [("a", Demo.note "x" "2024-01-01T00:00:00")] = None
  /\ call_tool Demo.lib "note_delete" Bench.title_b Bench.shelf
     = (Return (reply "❌ Note 'b' not found"), Bench.shelf).
Proof.
  assert (H : Py.lookup (str_strip Demo.lib "b")
                [("a", Demo.note "x" "2024-01-01T00:00:00")] = None) by reflexivity.
  split; [exact H |].
  exact (proj2 (note_missing_title Demo.lib Bench.title_b "b"
                  [("a", Demo.note "x" "2024-01-01T00:00:00")] Bench.shelf
                  eq_refl eq_refl H)).
Defined.

(** X8.  A notes file that is missing, or that [json.load] rejects, reads
    as an empty store: [note_list] reports that there are no notes and
    [note_read] finds no title, neither raising nor touching the world. *)
Theorem unreadable_file_is_empty_store L args raw w :
  unreadable L w ->
  Py.get args "title" (JStr "") = Return (JStr raw) ->
  call_tool L "note_list" args w
  = (Return (reply "📭 No notes found. Create one with note_create!"), w)
  /\ call_tool L "note_read" args w
     = (Return (reply ("❌ Note '" ++ str_strip L raw ++ "' not found")), w).
Proof.
  intros Hun Ht. apply load_notes_unreadable in Hun. split.
  - change (call_tool L "note_list" args w)
      with (try_except (_handle_note_list L args)
              (fun e => ret (reply (error_executing "note_list" e))) w).
    unfold try_except, _handle_note_list, bind.
    rewrite (load_notes_fst L w), Hun. reflexivity.
  - rewrite (note_read_runs L args raw [] w Ht Hun). reflexivity.
Qed.

Lemma unreadable_file_is_empty_store_witness :
  unreadable Demo.lib
    {| notes_file := Some "{"; disk_free := None; clock := 0; draws := 0 |}
  /\ call_tool Demo.lib "note_list" Bench.title_a
       {| notes_file := Some "{"; disk_free := None; clock := 0; draws := 0 |}
     = (Return (reply "📭 No notes found. Create one with note_create!"),
        {| notes_file := Some "{"; disk_free := None; clock := 0; draws := 0 |}).
Proof.
  assert (H : unreadable Demo.lib
                {| notes_file := Some "{"; disk_free := None; clock := 0; draws := 0 |}).
  { right. exists "{", (Exn "JSONDecodeError" "Expecting value: line 1 column 1 (char 0)").
    split; reflexivity. }
  split; [exact H |].
  exact (proj1 (unreadable_file_is_empty_store Demo.lib Bench.title_a "a" _ H eq_refl)).
Defined.

(** X9.  [note_create] stores whatever content it is given, and
    [note_list] slices every content: after creating, on an empty store,
    a note whose content cannot be sliced (a number, a boolean, null, a
    dict), the create succeeds and [note_list] from then on reports the
    slicing error instead of the listing. *)
Theorem unsliceable_content_breaks_listing L args raw content e w :
  Py.get args "title" (JStr "") = Return (JStr raw) ->
  Py.get args "content" (JStr "") = Return content ->
  Py.slice_to 50 content = Raise e ->
  str_strip L raw <> "" ->
  unreadable L w ->
  disk_free w = None ->
  (let saved := JObj [(str_strip L raw, stored_note L content (clock w) (S (clock w)))] in
   json_loads L (json_dumps_indent L saved) = Return saved) ->
  fst (call_tool L "note_create" args w)
  = Return (reply ("✅ Note '" ++ str_strip L raw ++ "' saved successfully!"))
  /\ fst (call_tool L "note_list" (JObj []) (snd (call_tool L "note_create" args w)))
     = Return (reply ("❌ Error executing note_list: " ++ exn_str e)).
Proof.
  intros Ht Hc Hslice Hne Hun Hroom Hlaw.
  apply load_notes_unreadable in Hun.
  rewrite (note_create_runs L args raw content [] w Ht Hc Hne Hun Hroom).
  split; [reflexivity |]. cbn [snd Py.dict_set].
  change (call_tool L "note_list" (JObj []) ?w1)
    with (try_except (_handle_note_list L (JObj []))
            (fun e => ret (reply (error_executing "note_list" e))) w1).
  unfold try_except, _handle_note_list, bind.
  rewrite load_notes_fst, (load_notes_written L _ _ _ Hlaw).
  cbn [Py.truthy negb items_of ret for_each note_line bind lift stored_note Py.get
       Py.dict_get Py.lookup String.eqb Ascii.eqb Bool.eqb].
  unfold bind, lift. cbn [Py.slice_to]. rewrite Hslice. reflexivity.
Qed.

Lemma unsliceable_content_breaks_listing_witness :
  Py.slice_to 50 (JInt 5) = Raise (Py.TypeError "'int' object is not subscriptable")
  /\ fst (call_tool (Bench.lib [Bench.number_note]) "note_list" (JObj [])
            (snd (call_tool (Bench.lib [Bench.number_note]) "note_create" Bench.create_n
                    Demo.fresh)))
     = Return (reply "❌ Error executing note_list: 'int' object is not subscriptable").
Proof.
  assert (H : Py.slice_to 50 (JInt 5)
              = Raise (Py.TypeError "'int' object is not subscriptable")) by reflexivity.
  assert (Hne : str_strip (Bench.lib [Bench.number_note]) "n" <> "").
  { vm_compute. discriminate. }
  split; [exact H |].
  exact (proj2 (unsliceable_content_breaks_listing (Bench.lib [Bench.number_note])
                  Bench.create_n "n" (JInt 5) _ Demo.fresh
                  eq_refl eq_refl H Hne (or_introl eq_refl) eq_refl eq_refl)).
Defined.

(** ** UUIDs *)

Lemma min_ten_range c count n :
  Py.min_ten c = Return count -> Py.range_len count = Return n -> n <= 10.
Proof.
  destruct c as [| b | z | f | s | l | m]; simpl; intros H; inversion H; subst; clear H.
  - destruct b; simpl; intros H'; inversion H'; lia.
  - destruct (Z.ltb_spec 10 z); simpl; intros H'; inversion H'; lia.
  - destruct (SFltb Py.float_ten f); simpl; intros H'; inversion H'; lia.
Qed.

(** X10.  Whatever the arguments, one call of [generate_uuid] draws at
    most ten UUIDs, reads no clock and leaves the notes file alone. *)
Theorem generate_uuid_at_most_ten L args w :
  draws w <= draws (snd (call_tool L "generate_uuid" args w)) <= draws w + 10
  /\ clock (snd (call_tool L "generate_uuid" args w)) = clock w
  /\ notes_file (snd (call_tool L "generate_uuid" args w)) = notes_file w.
Proof.
  change (call_tool L "generate_uuid" args w)
    with (try_except (_handle_generate_uuid L args)
            (fun e => ret (reply (error_executing "generate_uuid" e))) w).
  unfold try_except, _handle_generate_uuid, bind, lift, ret.
  destruct (Py.get args "count" (JInt 1)) as [c | e]; [| cbn; repeat split; lia].
  destruct (Py.min_ten c) as [count | e] eqn:Hmin; [| cbn; repeat split; lia].
  destruct (Py.range_len count) as [n | e] eqn:Hlen; [| cbn; repeat split; lia].
  pose proof (min_ten_range c count n Hmin Hlen) as Hn.
  rewrite uuid_list_runs.
  destruct (Py.eq_one count); [destruct (uuids_from L (draws w) n) |];
    cbn [snd draws clock notes_file raise]; repeat split; lia.
Qed.

(** X11.  For an integer [count] of [n], [generate_uuid] lists the UUIDs
    of the next [min(n, 10)] draws, none when that is zero or negative,
    in the order drawn: one alone as "🆔 UUID: ...", otherwise numbered
    from 1 under "🆔 Generated <min(n, 10)> UUIDs:".  The schema's
    minimum of 1 is not enforced. *)
Theorem generate_uuid_integer_count L args n w :
  Py.get args "count" (JInt 1) = Return (JInt n) ->
  let k := Z.to_nat (Z.min n 10) in
  let uuids := uuids_from L (draws w) k in
  length uuids = k
  /\ call_tool L "generate_uuid" args w
     = (Return (reply
          (if Z.eqb n 1
           then "🆔 UUID: `" ++ hd "" uuids ++ "`"
           else "🆔 Generated " ++ pretty (Z.min n 10) ++ " UUIDs:" ++ nl
                ++ join nl (imap (fun i u => "  " ++ pretty (i + 1)%nat ++ ". `" ++ u ++ "`")
                              uuids))),
        World (notes_file w) (disk_free w) (clock w) (k + draws w)).
Proof.
  intros Hc k uuids.
  split; [unfold uuids, uuids_from; rewrite length_map, length_seq; reflexivity |].
  change (call_tool L "generate_uuid" args w)
    with (try_except (_handle_generate_uuid L args)
            (fun e => ret (reply (error_executing "generate_uuid" e))) w).
  unfold try_except, _handle_generate_uuid, bind, lift, ret.
  rewrite Hc. cbn [Py.min_ten].
  assert (Hmin : (if (10 <? n)%Z then JInt 10 else JInt n) = JInt (Z.min n 10)).
  { destruct (Z.ltb_spec 10 n); f_equal; lia. }
  rewrite Hmin. cbn [Py.range_len Py.eq_one Py.format]. rewrite uuid_list_runs.
  fold k. fold uuids.
  destruct (Z.eqb_spec n 1) as [-> | Hne].
  - reflexivity.
  - destruct (Z.eqb_spec (Z.min n 10) 1) as [Hone | _]; [lia | reflexivity].
Qed.

Lemma generate_uuid_integer_count_witness :
  Py.get (JObj [("count", JInt (-3))]) "count" (JInt 1) = Return (JInt (-3))
  /\ call_tool Demo.lib "generate_uuid" (JObj [("count", JInt (-3))]) Demo.fresh
     = (Return (reply ("🆔 Generated -3 UUIDs:" ++ nl)), Demo.fresh).
Proof.
  assert (H : Py.get (JObj [("count", JInt (-3))]) "count" (JInt 1) = Return (JInt (-3)))
    by reflexivity.
  split; [exact H |].
  exact (proj2 (generate_uuid_integer_count Demo.lib (JObj [("count", JInt (-3))]) (-3)
                  Demo.fresh H)).
Defined.

(** ** Text *)

Lemma slug_char_not_dash c : slug_char c = true -> Ascii.eqb c "-" = false.
Proof.
  intros H. destruct (Ascii.eqb_spec c "-") as [-> | _]; [discriminate H | reflexivity].
Qed.

Lemma sub_runs_dashes_apart s : forall b, dashes_apart b (sub_runs b s) = true.
Proof.
  induction s as [| c s IH]; intros b; [reflexivity |].
  cbn [sub_runs]. destruct (slug_char c) eqn:Hc.
  - cbn [dashes_apart]. rewrite (slug_char_not_dash c Hc), Hc. apply IH.
  - destruct b; [apply IH |].
    cbn [dashes_apart]. rewrite Ascii.eqb_refl. apply IH.
Qed.

Lemma lstrip_dashes_apart s : forall b,
  dashes_apart b s = true -> dashes_apart true (lstrip (Ascii.eqb "-") s) = true.
Proof.
  induction s as [| c s IH]; intros b H; [reflexivity |].
  cbn [lstrip]. cbn [dashes_apart] in H. rewrite (Ascii.eqb_sym "-" c).
  destruct (Ascii.eqb c "-") eqn:Hc.
  - apply andb_true_iff in H as [_ H]. apply (IH true H).
  - cbn [dashes_apart]. rewrite Hc. exact H.
Qed.

Lemma rstrip_slug s : forall b,
  dashes_apart b s = true ->
  rstrip (Ascii.eqb "-") s = "" \/ slug_body b (rstrip (Ascii.eqb "-") s) = true.
Proof.
  induction s as [| c s IH]; intros b H; [left; reflexivity |].
  cbn [dashes_apart] in H. cbn [rstrip]. rewrite (Ascii.eqb_sym "-" c).
  destruct (Ascii.eqb c "-") eqn:Hc.
  - apply andb_true_iff in H as [Hb H].
    destruct (IH true H) as [E | E]; destruct (rstrip (Ascii.eqb "-") s) as [| c' r].
    + left. reflexivity.
    + discriminate E.
    + left. reflexivity.
    + right. cbn [slug_body]. rewrite Hc, Hb. exact E.
  - apply andb_true_iff in H as [Hs H]. right.
    destruct (IH false H) as [E | E]; destruct (rstrip (Ascii.eqb "-") s) as [| c' r].
    + cbn [slug_body]. rewrite Hc, Hs. reflexivity.
    + discriminate E.
    + cbn [slug_body]. rewrite Hc, Hs. reflexivity.
    + cbn [slug_body]. rewrite Hc, Hs. exact E.
Qed.

Lemma slugify_is_slug s : is_slug (strip_dash (sub_runs false s)) = true.
Proof.
  unfold strip_dash.
  pose proof (lstrip_dashes_apart _ _ (sub_runs_dashes_apart s false)) as H.
  destruct (rstrip_slug _ _ H) as [E | E].
  - rewrite E. reflexivity.
  - unfold is_slug. destruct (rstrip _ _); [reflexivity | exact E].
Qed.

Lemma call_tool_text_transform L args w :
  call_tool L "text_transform" args w
  = try_except (_handle_text_transform L args)
      (fun e => ret (reply (error_executing "text_transform" e))) w.
Proof. reflexivity. Qed.

(** X12.  The result of [slugify] is always a slug, whatever the text and
    whatever [str.lower] does to it: only the characters a-z and 0-9 and
    single dashes between them, no dash first or last; it may be empty. *)
Theorem text_transform_slugify L args text w :
  Py.get args "text" (JStr "") = Return (JStr text) ->
  Py.get args "operation" (JStr "") = Return (JStr "slugify") ->
  exists slug,
    call_tool L "text_transform" args w = (Return (reply ("📝 Result: " ++ slug)), w)
    /\ is_slug slug = true.
Proof.
  intros Ht Ho. exists (strip_dash (sub_runs false (str_lower L text))).
  split; [| apply slugify_is_slug].
  rewrite call_tool_text_transform.
  unfold try_except, _handle_text_transform, bind, lift, ret. rewrite Ht, Ho.
  reflexivity.
Qed.

Lemma text_transform_slugify_witness :
  Py.get (JObj [("text", JStr "--Hello,  World!"); ("operation", JStr "slugify")])
    "operation" (JStr "") = Return (JStr "slugify")
  /\ exists slug,
       call_tool Demo.lib "text_transform"
         (JObj [("text", JStr "--Hello,  World!"); ("operation", JStr "slugify")])
         Demo.fresh
       = (Return (reply ("📝 Result: " ++ slug)), Demo.fresh)
       /\ is_slug slug = true.
Proof.
  split; [reflexivity |].
  exact (text_transform_slugify Demo.lib
           (JObj [("text", JStr "--Hello,  World!"); ("operation", JStr "slugify")])
           "--Hello,  World!" Demo.fresh eq_refl eq_refl).
Defined.

(** X13.  The seven transformations are all computed before the operation
    is looked at, so a [text] that is not a string fails whatever the
    operation, known or not: the reply is the dispatch report of the
    missing [upper] method. *)
Theorem text_transform_text_not_str L args text operation w :
  Py.get args "text" (JStr "") = Return text ->
  Py.get args "operation" (JStr "") = Return operation ->
  (forall s, text <> JStr s) ->
  call_tool L "text_transform" args w
  = (Return (reply ("❌ Error executing text_transform: '" ++ Py.type_name text
                    ++ "' object has no attribute 'upper'")), w).
Proof.
  intros Ht Ho Hns. rewrite call_tool_text_transform.
  unfold try_except, _handle_text_transform, bind, lift, ret. rewrite Ht, Ho.
  destruct text; try reflexivity. exfalso. apply (Hns s). reflexivity.
Qed.

Lemma text_transform_text_not_str_witness :
  (forall s, JArr [] <> JStr s)
  /\ call_tool Demo.lib "text_transform"
       (JObj [("text", JArr []); ("operation", JStr "shout")]) Demo.fresh
     = (Return (reply "❌ Error executing text_transform: 'list' object has no attribute 'upper'"),
        Demo.fresh).
Proof.
  assert (H : forall s, JArr [] <> JStr s) by (intros s; discriminate).
  split; [exact H |].
  exact (text_transform_text_not_str Demo.lib
           (JObj [("text", JArr []); ("operation", JStr "shout")])
           (JArr []) (JStr "shout") Demo.fresh eq_refl eq_refl H).
Defined.

Lemma concat_cons g gs : String.concat "" (g :: gs) = g ++ String.concat "" gs.
Proof.
  destruct gs as [| g' gs]; [symmetry; apply string_app_nil_r | reflexivity].
Qed.

(** The scan splits a string into continuation bytes and code points. *)
Lemma cp_scan_spec s :
  let '(pending, groups) := cp_scan s in
  all_continuation pending = true
  /\ forallb code_point groups = true
  /\ s = pending ++ String.concat "" groups.
Proof.
  induction s as [| c s IH]; [repeat split |].
  cbn [cp_scan]. destruct (cp_scan s) as [pending groups].
  destruct IH as (Hp & Hg & Hs).
  destruct (is_continuation c) eqn:Hc.
  - split; [cbn [all_continuation]; rewrite Hc; exact Hp |].
    split; [exact Hg |].
    change (String c s = String c (pending ++ String.concat "" groups)).
    f_equal. exact Hs.
  - split; [reflexivity |]. split.
    + cbn [forallb code_point]. rewrite Hc, Hp, Hg. reflexivity.
    + rewrite concat_cons.
      change (String c s = String c (pending ++ String.concat "" groups)).
      f_equal. exact Hs.
Qed.

Lemma cp_scan_continuation conts rest groups :
  all_continuation conts = true ->
  cp_scan rest = (EmptyString, groups) ->
  cp_scan (conts ++ rest) = (conts, groups).
Proof.
  intros Hc Hr. induction conts as [| c conts IH]; [exact Hr |].
  cbn [all_continuation] in Hc. apply andb_true_iff in Hc as [Hc Hcs].
  change (cp_scan (String c (conts ++ rest)) = (String c conts, groups)).
  cbn [cp_scan]. rewrite (IH Hcs), Hc. reflexivity.
Qed.

Lemma cp_scan_code_points gs :
  forallb code_point gs = true ->
  cp_scan (String.concat "" gs) = (EmptyString, gs).
Proof.
  induction gs as [| g gs IH]; intros H; [reflexivity |].
  cbn [forallb] in H. apply andb_true_iff in H as [Hg Hgs].
  rewrite concat_cons. destruct g as [| c conts]; [discriminate Hg |].
  cbn [code_point] in Hg. apply andb_true_iff in Hg as [Hc Hconts].
  change (cp_scan (String c (conts ++ String.concat "" gs)) = ("", String c conts :: gs)).
  cbn [cp_scan]. rewrite (cp_scan_continuation _ _ _ Hconts (IH Hgs)).
  apply negb_true_iff in Hc. rewrite Hc. reflexivity.
Qed.

Lemma forallb_rev {A} (f : A -> bool) l : forallb f (rev l) = forallb f l.
Proof.
  induction l as [| a l IH]; [reflexivity |].
  cbn [rev forallb]. rewrite forallb_app, IH. cbn [forallb].
  rewrite andb_true_r. apply andb_comm.
Qed.

Lemma utf8_valid_lead c rest :
  utf8_valid (String c rest) = true -> is_continuation c = false.
Proof.
  unfold utf8_valid, is_continuation. cbn [utf8_scan]. unfold utf8_lead.
  destruct (N.leb_spec (N_of_ascii c) 127) as [Hlow | Hhigh].
  - intros _. destruct (N.leb_spec 128 (N_of_ascii c)); [lia | reflexivity].
  - destruct (N.ltb_spec (N_of_ascii c) 194) as [H194 | H194]; [discriminate |].
    intros _. destruct (N.ltb_spec (N_of_ascii c) 192); [lia |].
    apply andb_false_r.
Qed.

(** [s[::-1][::-1] == s]. *)
Lemma reverse_involutive s : utf8_valid s = true -> reverse (reverse s) = s.
Proof.
  intros Hv. unfold reverse, codepoints.
  pose proof (cp_scan_spec s) as Hs. destruct (cp_scan s) as [pending groups] eqn:E.
  destruct Hs as (Hp & Hg & Hs).
  assert (Hpend : pending = "").
  { destruct s as [| c rest]; [inversion E; reflexivity |].
    cbn [cp_scan] in E. rewrite (utf8_valid_lead c rest Hv) in E.
    destruct (cp_scan rest); inversion E; reflexivity. }
  subst pending.
  rewrite cp_scan_code_points by (rewrite forallb_rev; exact Hg).
  rewrite rev_involutive. symmetry. exact Hs.
Qed.

(** X14.  Reversing twice gives the text back: [text_transform] with
    "reverse" applied to its own result returns the original text, code
    point by code point, for every text. *)
Theorem text_transform_reverse_twice L text w :
  utf8_valid text = true ->
  call_tool L "text_transform"
    (JObj [("text", JStr text); ("operation", JStr "reverse")]) w
  = (Return (reply ("📝 Result: " ++ reverse text)), w)
  /\ call_tool L "text_transform"
       (JObj [("text", JStr (reverse text)); ("operation", JStr "reverse")]) w
     = (Return (reply ("📝 Result: " ++ text)), w).
Proof.
  intros Hv. split; [reflexivity |].
  rewrite <- (reverse_involutive text Hv) at 2. reflexivity.
Qed.

Lemma text_transform_reverse_twice_witness :
  utf8_valid "a❌b" = true
  /\ reverse "a❌b" = "b❌a"
  /\ call_tool Demo.lib "text_transform"
       (JObj [("text", JStr (reverse "a❌b")); ("operation", JStr "reverse")]) Demo.fresh
     = (Return (reply ("📝 Result: " ++ "a❌b")), Demo.fresh).
Proof.
  assert (H : utf8_valid "a❌b" = true) by reflexivity.
  split; [exact H |]. split; [reflexivity |].
  exact (proj2 (text_transform_reverse_twice Demo.lib "a❌b" Demo.fresh H)).
Defined.

(** ** Calculator *)




(** ** JSON formatting *)

(** X16.  When [json.loads] rejects the text, [json_format] tells the two
    kinds of failure apart: a [JSONDecodeError] is answered by the handler
    itself as "❌ Invalid JSON: ...", any other exception passes the
    handler and is answered by the dispatch as
    "❌ Error executing json_format: ...".  Neither touches the world. *)
Theorem json_format_rejections L args s operation e w :
  Py.get args "json_string" (JStr "") = Return (JStr s) ->
  Py.get args "operation" (JStr "format") = Return operation ->
  json_loads L s = Raise e ->
  call_tool L "json_format" args w
  = (Return (reply (if String.eqb (exn_class e) "JSONDecodeError"
                    then "❌ Invalid JSON: " ++ exn_str e
                    else "❌ Error executing json_format: " ++ exn_str e)), w).
Proof.
  intros Hs Ho He.
  change (call_tool L "json_format" args w)
    with (try_except (_handle_json_format L args)
            (fun e => ret (reply (error_executing "json_format" e))) w).
  unfold try_except, _handle_json_format, try_except_class, bind, lift, ret.
  rewrite Hs, Ho. cbn [loads]. rewrite He.
  destruct (String.eqb (exn_class e) "JSONDecodeError"); reflexivity.
Qed.

Lemma json_format_rejections_witness :
  json_loads Demo.lib ""
  = Raise (Exn "JSONDecodeError" "Expecting value: line 1 column 1 (char 0)")
  /\ call_tool Demo.lib "json_format" (JObj []) Demo.fresh
     = (Return (reply "❌ Invalid JSON: Expecting value: line 1 column 1 (char 0)"),
        Demo.fresh).
Proof.
  assert (H : json_loads Demo.lib ""
              = Raise (Exn "JSONDecodeError" "Expecting value: line 1 column 1 (char 0)"))
    by reflexivity.
  split; [exact H |].
  exact (json_format_rejections Demo.lib (JObj []) "" (JStr "format") _ Demo.fresh
           eq_refl eq_refl H).
Defined.

(** X17.  Every operation other than "validate" and "minify" formats, and
    formatting is stable: with a JSON library that reads back what it
    printed, formatting the formatted document gives the same reply as
    formatting the original text. *)
Theorem json_format_is_stable L s operation v w :
  json_loads L s = Return v ->
  Py.eq_str operation "validate" = false ->
  Py.eq_str operation "minify" = false ->
  json_loads L (json_dumps_indent L v) = Return v ->
  call_tool L "json_format" (JObj [("json_string", JStr s); ("operation", operation)]) w
  = (Return (reply ("📋 Formatted:" ++ nl ++ "```json" ++ nl
                    ++ json_dumps_indent L v ++ nl ++ "```")), w)
  /\ call_tool L "json_format"
       (JObj [("json_string", JStr (json_dumps_indent L v)); ("operation", operation)]) w
     = call_tool L "json_format"
         (JObj [("json_string", JStr s); ("operation", operation)]) w.
Proof.
  intros Hs Hv Hm Hlaw.
  assert (H : forall text, json_loads L text = Return v ->
    call_tool L "json_format" (JObj [("json_string", JStr text); ("operation", operation)]) w
    = (Return (reply ("📋 Formatted:" ++ nl ++ "```json" ++ nl
                      ++ json_dumps_indent L v ++ nl ++ "```")), w)).
  { intros text Ht.
    change (call_tool L "json_format" ?a w)
      with (try_except (_handle_json_format L a)
              (fun e => ret (reply (error_executing "json_format" e))) w).
    unfold try_except, _handle_json_format, try_except_class, bind, lift, ret.
    cbn [Py.get Py.dict_get Py.lookup String.eqb Ascii.eqb Bool.eqb loads].
    rewrite Ht, Hv, Hm. reflexivity. }
  split; [apply H; exact Hs |].
  rewrite (H _ Hlaw), (H _ Hs). reflexivity.
Qed.

Lemma json_format_is_stable_witness :
  json_loads Demo.lib "{}" = Return (JObj [])
  /\ call_tool Demo.lib "json_format"
       (JObj [("json_string", JStr "{}"); ("operation", JStr "pretty")]) Demo.fresh
     = (Return (reply ("📋 Formatted:" ++ nl ++ "```json" ++ nl ++ "{}" ++ nl ++ "```")),
        Demo.fresh).
Proof.
  assert (H : json_loads Demo.lib "{}" = Return (JObj [])) by reflexivity.
  split; [exact H |].
  exact (proj1 (json_format_is_stable Demo.lib "{}" (JStr "pretty") (JObj []) Demo.fresh
                  H eq_refl eq_refl eq_refl)).
Defined.

(** ** Base64 and hashes *)

(** X18.  The [base64_convert] round trip for every text that has a
    UTF-8 encoding (a [str] without lone surrogates): encoding gives the
    Base64 of its UTF-8 bytes, and decoding that gives the text back. *)
Theorem base64_convert_roundtrip_any L text w :
  PyStr.utf8_valid text = true ->
  call_tool L "base64_convert"
    (JObj [("text", JStr text); ("operation", JStr "encode")]) w
  = (Return (reply ("🔤 Encoded:" ++ nl ++ "`" ++ Base64.b64encode text ++ "`")), w)
  /\ call_tool L "base64_convert"
       (JObj [("text", JStr (Base64.b64encode text)); ("operation", JStr "decode")]) w
     = (Return (reply ("🔤 Decoded:" ++ nl ++ "`" ++ text ++ "`")), w).
Proof. apply base64_convert_roundtrip. Qed.

Lemma base64_convert_roundtrip_any_witness :
  PyStr.utf8_valid "naïve ✅" = true
  /\ Base64.b64encode "naïve ✅" = "bmHDr3ZlIOKchQ=="
  /\ call_tool Demo.lib "base64_convert"
       (JObj [("text", JStr (Base64.b64encode "naïve ✅")); ("operation", JStr "decode")])
       Demo.fresh
     = (Return (reply ("🔤 Decoded:" ++ nl ++ "`" ++ "naïve ✅" ++ "`")), Demo.fresh).
Proof.
  assert (H : PyStr.utf8_valid "naïve ✅" = true) by reflexivity.
  split; [exact H |]. split; [reflexivity |].
  exact (proj2 (base64_convert_roundtrip_any Demo.lib "naïve ✅" Demo.fresh H)).
Defined.

(** X19.  The algorithm name is matched as given, lower case only, and
    before the text is looked at: a name outside md5, sha1, sha256 and
    sha512 (such as "SHA256") is answered with
    "❌ Unknown algorithm: <name>" whatever the text is. *)
Theorem generate_hash_unknown_algorithm L args text algorithm w :
  Py.get args "text" (JStr "") = Return text ->
  Py.get args "algorithm" (JStr "sha256") = Return (JStr algorithm) ->
  ~ In algorithm ["md5"; "sha1"; "sha256"; "sha512"] ->
  call_tool L "generate_hash" args w
  = (Return (reply ("❌ Unknown algorithm: " ++ algorithm)), w).
Proof.
  intros Ht Ha Hout.
  change (call_tool L "generate_hash" args w)
    with (try_except (_handle_generate_hash L args)
            (fun e => ret (reply (error_executing "generate_hash" e))) w).
  unfold try_except, _handle_generate_hash, bind, lift, ret. rewrite Ht, Ha.
  cbn [Py.key_of find_key hash_funcs List.find fst snd]. simpl in Hout.
  repeat match goal with
  | |- context [String.eqb ?lit algorithm] =>
      destruct (String.eqb_spec lit algorithm); [exfalso; apply Hout; tauto |]
  end.
  reflexivity.
Qed.

Lemma generate_hash_unknown_algorithm_witness :
  ~ In "SHA256" ["md5"; "sha1"; "sha256"; "sha512"]
  /\ call_tool Demo.lib "generate_hash"
       (JObj [("text", JInt 7); ("algorithm", JStr "SHA256")]) Demo.fresh
     = (Return (reply "❌ Unknown algorithm: SHA256"), Demo.fresh).
Proof.
  assert (H : ~ In "SHA256" ["md5"; "sha1"; "sha256"; "sha512"]).
  { simpl. intuition discriminate. }
  split; [exact H |].
  exact (generate_hash_unknown_algorithm Demo.lib
           (JObj [("text", JInt 7); ("algorithm", JStr "SHA256")])
           (JInt 7) "SHA256" Demo.fresh eq_refl eq_refl H).
Defined.

(** ** System information *)

(** X20.  An [info_type] that is none of time, platform, cwd, env and all
    is not an error: [system_info] answers with the empty JSON object,
    and the world is left as it was: no clock is read and nothing is
    changed. *)
Theorem system_info_unknown_type L args info_type w :
  Py.get args "info_type" (JStr "all") = Return info_type ->
  (forall t, In t info_types -> Py.eq_str info_type t = false) ->
  call_tool L "system_info" args w
  = (Return (reply ("💻 System Information:" ++ nl ++ "```json" ++ nl
                    ++ json_dumps_indent L (JObj []) ++ nl ++ "```")), w).
Proof.
  intros Hi Hout.
  change (call_tool L "system_info" args w)
    with (try_except (_handle_system_info L args)
            (fun e => ret (reply (error_executing "system_info" e))) w).
  unfold try_except, _handle_system_info, bind, lift, ret, wants. rewrite Hi.
  rewrite !Hout by (unfold info_types; simpl; tauto).
  reflexivity.
Qed.

Lemma system_info_unknown_type_witness :
  (forall t, In t info_types -> Py.eq_str (JStr "uptime") t = false)
  /\ call_tool Demo.lib "system_info" (JObj [("info_type", JStr "uptime")]) Demo.fresh
     = (Return (reply ("💻 System Information:" ++ nl ++ "```json" ++ nl
                       ++ "{}" ++ nl ++ "```")), Demo.fresh).
Proof.
  assert (H : forall t, In t info_types -> Py.eq_str (JStr "uptime") t = false).
  { intros t Ht. unfold info_types in Ht. simpl in Ht.
    repeat (destruct Ht as [<- | Ht]; [reflexivity |]). destruct Ht. }
  split; [exact H |].
  exact (system_info_unknown_type Demo.lib (JObj [("info_type", JStr "uptime")])
           (JStr "uptime") Demo.fresh eq_refl H).
Defined.

(** ** Sessions, beyond the queue order *)

(** X21.  [POST /message] never opens or closes a session: whatever the
    body and the header, the set of session ids is the same afterwards. *)
Theorem message_keeps_sessions (ss : sessions) request_json header :
  dom (snd (_handle_message request_json header ss)) = dom ss.
Proof.
  unfold _handle_message.
  destruct request_json as [data | e]; [| reflexivity].
  destruct header as [sid |]; [| reflexivity].
  destruct (negb (String.eqb sid "")); [| reflexivity].
  destruct (ss !! sid) as [queue |] eqn:E; [| reflexivity].
  cbn [snd]. apply set_eq. intros k. rewrite !elem_of_dom.
  destruct (decide (k = sid)) as [-> | Hne].
  - rewrite lookup_insert_eq, E. split; eauto.
  - rewrite lookup_insert_ne by congruence. reflexivity.
Qed.

Lemma pop_n_pings k : forall (ss : sessions) sid,
  ss !! sid = Some [] ->
  pop_n k sid ss = Return (repeat PingFrame k, ss).
Proof.
  induction k as [| k IH]; intros ss sid Hq; [reflexivity |].
  cbn [pop_n]. unfold sse_next. rewrite Hq, (IH ss sid Hq). reflexivity.
Qed.

(** X22.  A consumer that keeps turning after its queue is drained gets
    the pending messages first, in order, and then one ping per turn; the
    pings take nothing from the session table. *)
Theorem drained_queue_pings (queue : list json) k : forall (ss : sessions) sid,
  ss !! sid = Some queue ->
  pop_n (length queue + k) sid ss
  = Return ((map MessageFrame queue ++ repeat PingFrame k)%list, <[sid := []]> ss).
Proof.
  induction queue as [| m rest IH]; intros ss sid Hq.
  - cbn [length Nat.add map app]. rewrite (pop_n_pings k ss sid Hq).
    rewrite insert_id; [reflexivity | exact Hq].
  - cbn [length Nat.add pop_n]. unfold sse_next. rewrite Hq.
    rewrite (IH (<[sid := rest]> ss) sid) by apply lookup_insert_eq.
    rewrite insert_insert_eq. reflexivity.
Qed.

Lemma drained_queue_pings_witness :
  (<["s1" := [JInt 7]]> ∅ : sessions) !! "s1" = Some [JInt 7]
  /\ pop_n 3 "s1" (<["s1" := [JInt 7]]> ∅)
     = Return ([MessageFrame (JInt 7); PingFrame; PingFrame],
               <["s1" := []]> (<["s1" := [JInt 7]]> ∅)).
Proof.
  assert (H : (<["s1" := [JInt 7]]> ∅ : sessions) !! "s1" = Some [JInt 7]) by reflexivity.
  split; [exact H |].
  exact (drained_queue_pings [JInt 7] 2 (<["s1" := [JInt 7]]> ∅) "s1" H).
Defined.

(** X23.  A connection whose fresh id is not in use opens a session with
    an empty queue, announces the id as its first frame, uses one draw of
    the random source and leaves every other session as it was; the
    [finally] block then restores the session table exactly. *)
Theorem connect_then_disconnect L (ss : sessions) w :
  ss !! next_uuid L w = None ->
  let '((sid, first, ss'), w') := sse_connect L ss w in
  first = SessionFrame sid
  /\ ss' !! sid = Some []
  /\ (forall other, other <> sid -> ss' !! other = ss !! other)
  /\ draws w' = S (draws w)
  /\ sse_disconnect sid ss' = Return ss.
Proof.
  intros Hfresh. unfold sse_connect.
  split; [reflexivity |]. split; [apply lookup_insert_eq |].
  split; [intros other Hne; apply lookup_insert_ne; congruence |].
  split; [reflexivity |].
  unfold sse_disconnect. rewrite lookup_insert_eq.
  rewrite delete_insert_eq. rewrite delete_id; [reflexivity | exact Hfresh].
Qed.

Lemma connect_then_disconnect_witness :
  (<["s1" := [JInt 7]]> ∅ : sessions) !! next_uuid Demo.lib Demo.fresh = None
  /\ sse_disconnect "00000000-0000-4000-8000-000000000000"
       (<["00000000-0000-4000-8000-000000000000" := []]> (<["s1" := [JInt 7]]> ∅))
     = Return (<["s1" := [JInt 7]]> ∅).
Proof.
  assert (H : (<["s1" := [JInt 7]]> ∅ : sessions) !! next_uuid Demo.lib Demo.fresh = None)
    by reflexivity.
  split; [exact H |].
  exact (proj2 (proj2 (proj2 (proj2
           (connect_then_disconnect Demo.lib (<["s1" := [JInt 7]]> ∅) Demo.fresh H))))).
Defined.

Lemma push_lookup_open (ss : sessions) sid queue event :
  sid <> "" -> ss !! sid = Some queue ->
  push sid event ss !! sid = Some (queue ++ [event])%list.
Proof.
  intros Hne Hq. rewrite (push_open ss sid queue event Hne Hq). apply lookup_insert_eq.
Qed.

(** X24.  Under any interleaving of posts, to this and to other ids, with
    turns of the consumer loop, an open session loses, repeats and
    reorders nothing: the messages sent to its consumer, followed by
    those still queued, are the messages that were queued at the start
    followed by the events posted to it, in the order posted. *)
Theorem session_delivers_in_order sid (actions : list action) :
  sid <> "" ->
  forall (ss : sessions) queue,
  ss !! sid = Some queue ->
  exists sent ss' queue',
    run_actions sid actions ss = Return (sent, ss')
    /\ ss' !! sid = Some queue'
    /\ (sent ++ queue')%list = (queue ++ posted_to sid actions)%list.
Proof.
  intros Hne. induction actions as [| [target event |] rest IH]; intros ss queue Hq.
  - exists [], ss, queue. cbn. rewrite app_nil_r. auto.
  - cbn [run_actions posted_to].
    destruct (String.eqb_spec target sid) as [-> | Hother].
    + destruct (IH _ _ (push_lookup_open ss sid queue event Hne Hq))
        as (sent & ss' & queue' & Hrun & Hq' & Hsent).
      exists sent, ss', queue'. rewrite <- app_assoc in Hsent. auto.
    + assert (Hq1 : push target event ss !! sid = Some queue).
      { rewrite push_other by exact Hother. exact Hq. }
      destruct (IH _ _ Hq1) as (sent & ss' & queue' & Hrun & Hq' & Hsent).
      exists sent, ss', queue'. auto.
  - cbn [run_actions posted_to]. unfold sse_next. rewrite Hq.
    destruct queue as [| m queue].
    + destruct (IH _ _ Hq) as (sent & ss' & queue' & Hrun & Hq' & Hsent).
      exists sent, ss', queue'. rewrite Hrun. auto.
    + destruct (IH (<[sid := queue]> ss) queue (lookup_insert_eq _ _ _))
        as (sent & ss' & queue' & Hrun & Hq' & Hsent).
      exists (m :: sent), ss', queue'. rewrite Hrun.
      split; [reflexivity |]. split; [exact Hq' |].
      cbn [app]. f_equal. exact Hsent.
Qed.

Lemma session_delivers_in_order_witness :
  "s1" <> ""
  /\ (<["s1" := []]> ∅ : sessions) !! "s1" = Some []
  /\ exists sent ss' queue',
       run_actions "s1"
         [Post "s1" (JStr "E1"); Turn; Post "s2" (JStr "X"); Post "s1" (JStr "E2"); Turn; Turn]
         (<["s1" := []]> ∅)
       = Return (sent, ss')
       /\ ss' !! "s1" = Some queue'
       /\ (sent ++ queue')%list = [JStr "E1"; JStr "E2"].
Proof.
  assert (Hne : "s1" <> "") by discriminate.
  assert (Hq : (<["s1" := []]> ∅ : sessions) !! "s1" = Some []) by reflexivity.
  split; [exact Hne |]. split; [exact Hq |].
  exact (session_delivers_in_order "s1"
           [Post "s1" (JStr "E1"); Turn; Post "s2" (JStr "X"); Post "s1" (JStr "E2"); Turn; Turn]
           Hne (<["s1" := []]> ∅) [] Hq).
Defined.

(** ** Resources *)

Lemma notes_uri_eqb resource_name :
  String.eqb ("kensmcp://" ++ resource_name) "kensmcp://notes"
  = String.eqb resource_name "notes".
Proof. reflexivity. Qed.

Lemma server_info_uri_eqb resource_name :
  String.eqb ("kensmcp://" ++ resource_name) "kensmcp://server-info"
  = String.eqb resource_name "server-info".
Proof. reflexivity. Qed.

(** X25.  [GET /resources/{name}] knows two names: for any name other
    than "notes" and "server-info" the answer is 404 with the error
    "Unknown resource: kensmcp://<name>", and nothing is touched. *)
Theorem unknown_resource_is_404 L resource_name w :
  resource_name <> "notes" -> resource_name <> "server-info" ->
  Resources._handle_read_resource L resource_name w
  = (Return
       {| status := 404;
          body := JObj [("error", JStr ("Unknown resource: kensmcp://" ++ resource_name))] |},
     w).
Proof.
  intros Hn Hs. unfold Resources._handle_read_resource, Resources.read_resource.
  rewrite notes_uri_eqb, server_info_uri_eqb.
  destruct (String.eqb_spec resource_name "notes"); [contradiction |].
  destruct (String.eqb_spec resource_name "server-info"); [contradiction |].
  reflexivity.
Qed.

Lemma unknown_resource_is_404_witness :
  "Notes" <> "notes" /\ "Notes" <> "server-info"
  /\ Resources._handle_read_resource Demo.lib "Notes" Bench.shelf
     = (Return
          {| status := 404;
             body := JObj [("error", JStr "Unknown resource: kensmcp://Notes")] |},
        Bench.shelf).
Proof.
  assert (H1 : "Notes" <> "notes") by discriminate.
  assert (H2 : "Notes" <> "server-info") by discriminate.
  split; [exact H1 |]. split; [exact H2 |].
  exact (unknown_resource_is_404 Demo.lib "Notes" Bench.shelf H1 H2).
Defined.

(** X26.  [GET /resources/notes] shows the store as [load_notes] reads
    it: with a JSON library that prints it to a non-empty text and reads
    that text back, the answer is 200 with the store as content, and the
    world is untouched. *)
Theorem notes_resource_shows_store L notes w :
  fst (load_notes L w) = Return notes ->
  json_dumps_indent L notes <> "" ->
  json_loads L (json_dumps_indent L notes) = Return notes ->
  Resources._handle_read_resource L "notes" w
  = (Return
       {| status := 200;
          body := JObj [("uri", JStr "kensmcp://notes"); ("content", notes)] |}, w).
Proof.
  intros Hload Hne Hlaw. unfold Resources._handle_read_resource, Resources.read_resource.
  change (String.eqb ("kensmcp://" ++ "notes") "kensmcp://notes") with true.
  cbv iota zeta. unfold try_except, bind, lift, ret.
  rewrite (load_notes_fst L w), Hload.
  destruct (String.eqb_spec (json_dumps_indent L notes) ""); [contradiction |].
  rewrite Hlaw. reflexivity.
Qed.

Lemma notes_resource_shows_store_witness :
  fst (load_notes Demo.lib Bench.shelf) = Return Demo.old_notes
  /\ Resources._handle_read_resource Demo.lib "notes" Bench.shelf
     = (Return
          {| status := 200;
             body := JObj [("uri", JStr "kensmcp://notes"); ("content", Demo.old_notes)] |},
        Bench.shelf).
Proof.
  assert (H : fst (load_notes Demo.lib Bench.shelf) = Return Demo.old_notes) by reflexivity.
  assert (Hne : json_dumps_indent Demo.lib Demo.old_notes <> "").
  { vm_compute. discriminate. }
  split; [exact H |].
  exact (notes_resource_shows_store Demo.lib Demo.old_notes Bench.shelf H Hne eq_refl).
Defined.

(** X27.  The server-info resource names exactly the tools of the
    registry, in registry order, but states their number as 10 where the
    registry has 11. *)
Theorem server_info_names_registry :
  Py.getitem Resources.server_info "tools" = Return (JArr (map JStr tool_names))
  /\ Py.getitem Resources.server_info "tools_count" = Return (JInt 10)
  /\ length tool_names = 11.
Proof. repeat split. Qed.
